(** * iTerm tab monitor: attention engine, program classifier, event monitor

    A shallow embedding of the tab action of the Stream Deck plugin
    (the TypeScript module that defines [ITermTabAction]): the module-level
    variables become one record [State], every function that mutates them
    becomes a function on [State], and what the function receives from the
    operating system (AppleScript output, [ps] output, the frontmost check,
    the side-channel file, the clock) is an explicit argument.

    Strings are sequences of 8-bit code units ([string]); tab indices, poll
    counts and timestamps are integers ([Z]); [Set<number>] is [gset Z] and
    [Map<number, _>] is [gmap Z _].  Calls to the plugin logger and the SVG
    text of a rendered button are left out: the first only write to the
    log file, the second is a function of the options kept here. *)

From Stdlib Require Import ZArith String Ascii.
From stdpp Require Import gmap strings list fin_maps.

Local Open Scope string_scope.
Local Open Scope Z_scope.

Set Warnings "-clear-no-such-hyp".

(** ** JavaScript string primitives used by the module *)

Module Js.

(** [\s] of a regular expression and the characters removed by [trim]:
    TAB, LF, VT, FF, CR, SPACE and NO-BREAK SPACE (the white space and line
    terminators below U+0100). *)
Definition isWhiteSpace (c : ascii) : bool :=
  let n := nat_of_ascii c in
  ((9 <=? n)%nat && (n <=? 13)%nat) || (n =? 32)%nat || (n =? 160)%nat.

(** Line terminators: the characters [.] does not match. *)
Definition isLineTerminator (c : ascii) : bool :=
  let n := nat_of_ascii c in (n =? 10)%nat || (n =? 13)%nat.

Definition toLowerChar (c : ascii) : ascii :=
  let n := nat_of_ascii c in
  if ((65 <=? n)%nat && (n <=? 90)%nat)
     || ((192 <=? n)%nat && (n <=? 222)%nat && negb (n =? 215)%nat)
  then ascii_of_nat (n + 32) else c.

Fixpoint toLowerCase (s : string) : string :=
  match s with
  | EmptyString => EmptyString
  | String c s' => String (toLowerChar c) (toLowerCase s')
  end.

(** [s.startsWith(p)] *)
Definition startsWith (s p : string) : bool := String.prefix p s.

(** [s.includes(sub)] *)
Fixpoint includes (s sub : string) : bool :=
  String.prefix sub s ||
  match s with
  | EmptyString => false
  | String _ s' => includes s' sub
  end.

Fixpoint trimStart (s : string) : string :=
  match s with
  | String c s' => if isWhiteSpace c then trimStart s' else s
  | EmptyString => EmptyString
  end.

Fixpoint trimEnd (s : string) : string :=
  match s with
  | EmptyString => EmptyString
  | String c s' =>
      match trimEnd s' with
      | EmptyString => if isWhiteSpace c then EmptyString else String c EmptyString
      | t => String c t
      end
  end.

Definition trim (s : string) : string := trimEnd (trimStart s).

(** [s.split(sep)] for a one-character separator: never returns the empty
    list, [split "" sep = [""]]. *)
Fixpoint split (sep : ascii) (s : string) : list string :=
  match s with
  | EmptyString => [EmptyString]
  | String c s' =>
      if Ascii.eqb c sep then EmptyString :: split sep s'
      else match split sep s' with
           | [] => [String c EmptyString]
           | w :: ws => String c w :: ws
           end
  end.

(** [l.join(sep)] *)
Fixpoint join (sep : string) (l : list string) : string :=
  match l with
  | [] => EmptyString
  | [x] => x
  | x :: l' => x +:+ sep +:+ join sep l'
  end.

Fixpoint dropChars (n : nat) (s : string) : string :=
  match n, s with
  | S n', String _ s' => dropChars n' s'
  | _, _ => s
  end.

(** [s.replace(pat, rep)] with a string pattern: the first occurrence only. *)
Fixpoint replaceFirst (pat rep s : string) : string :=
  if String.prefix pat s then rep +:+ dropChars (String.length pat) s
  else match s with
       | EmptyString => EmptyString
       | String c s' => String c (replaceFirst pat rep s')
       end.

(** [a[k]] for an integer [k]: [None] stands for [undefined]. *)
Definition index {A} (a : list A) (k : Z) : option A :=
  if k <? 0 then None else a !! Z.to_nat k.

End Js.

(** ** Anchored regular expressions

    The two regular expressions of the module are sequences of quantified
    character classes between [^] and [$].  [Rx.exec] is the backtracking
    matcher of the language for such a sequence: a greedy quantifier tries
    the longest repetition first, a lazy one the shortest, and the first
    overall success is the match.  The result lists the text matched by
    each atom. *)

Module Rx.

Inductive quant := Once | Greedy (min : nat) | Lazy (min : nat).

Record atom := Atom { cls : ascii -> bool; rep : quant }.

Section Repeat.
Context {X : Type} (c : ascii -> bool) (min : nat)
        (k : string -> string -> option X).

Fixpoint repeatGreedy (taken s : string) : option X :=
  let stop := if (min <=? String.length taken)%nat then k taken s else None in
  match s with
  | String a s' =>
      if c a then
        match repeatGreedy (taken +:+ String a EmptyString) s' with
        | Some r => Some r
        | None => stop
        end
      else stop
  | EmptyString => stop
  end.

Fixpoint repeatLazy (taken s : string) : option X :=
  match (if (min <=? String.length taken)%nat then k taken s else None) with
  | Some r => Some r
  | None =>
      match s with
      | String a s' =>
          if c a then repeatLazy (taken +:+ String a EmptyString) s' else None
      | EmptyString => None
      end
  end.
End Repeat.

Fixpoint exec (r : list atom) (s : string) {struct r} : option (list string) :=
  match r with
  | [] => match s with EmptyString => Some [] | _ => None end
  | a :: r' =>
      let k := fun taken rest => cons taken <$> exec r' rest in
      match rep a with
      | Once =>
          match s with
          | String x s' => if cls a x then k (String x EmptyString) s' else None
          | EmptyString => None
          end
      | Greedy min => repeatGreedy (cls a) min k EmptyString s
      | Lazy min => repeatLazy (cls a) min k EmptyString s
      end
  end.

Definition dot : ascii -> bool := fun c => negb (Js.isLineTerminator c).
Definition space : ascii -> bool := Js.isWhiteSpace.
Definition nonSpace : ascii -> bool := fun c => negb (Js.isWhiteSpace c).
Definition lit (x : ascii) : ascii -> bool := Ascii.eqb x.
Definition notLit (x : ascii) : ascii -> bool := fun c => negb (Ascii.eqb x c).

End Rx.

(** ** Tab name parsing *)

(** [/^(.+?)\s*\(([^)]+)\)\s*$/] *)
Definition tabNameRegex : list Rx.atom :=
  [ Rx.Atom Rx.dot (Rx.Lazy 1);
    Rx.Atom Rx.space (Rx.Greedy 0);
    Rx.Atom (Rx.lit "(") Rx.Once;
    Rx.Atom (Rx.notLit ")") (Rx.Greedy 1);
    Rx.Atom (Rx.lit ")") Rx.Once;
    Rx.Atom Rx.space (Rx.Greedy 0) ].

Record TabName := { displayName : string; process : string }.

Definition parseTabName (fullName : string) : TabName :=
  match Rx.exec tabNameRegex fullName with
  | Some [g1; _; _; g2; _; _] =>
      {| displayName := Js.trim g1; process := Js.trim g2 |}
  | _ => {| displayName := fullName; process := "" |}
  end.

Definition matchesProject (tabFullName project : string) : bool :=
  Js.includes (Js.toLowerCase (displayName (parseTabName tabFullName)))
              (Js.toLowerCase project).

(** ** Program detection *)

(** Fallback: the program is read off the process name of the tab title.
    [replace(/^-/, "")] drops one leading dash (a login shell). *)
Definition dropLeadingDash (s : string) : string :=
  match s with
  | String "-" rest => rest
  | _ => s
  end.

Definition detectProgramFromName (process : string) : string :=
  let p := dropLeadingDash (Js.toLowerCase process) in
  if Js.includes p "codex" then "codex"
  else if Js.includes p "claude" then "claude"
  else if Js.includes p "python" then "python"
  else if Js.includes p "node" || Js.includes p "npm" || Js.includes p "npx"
       then "node"
  else if Js.includes p "ssh" then "ssh"
  else if Js.includes p "vim" || Js.includes p "nvim" then "vim"
  else if Js.includes p "zsh" || Js.includes p "bash" || Js.includes p "fish"
       then "shell"
  else "other".

(** [for (let i = 0; i < a.length; i++) body(i, a[i])], started at index
    [i]. *)
Fixpoint forEachIndex {A T : Type} (body : nat -> A -> T -> T)
    (i : nat) (a : list A) (s : T) : T :=
  match a with
  | [] => s
  | x :: a' => forEachIndex body (S i) a' (body i x s)
  end.

(** [/^\s*(\S+)\s+(\S+)\s+(.+)$/], one line of [ps -e -o tty=,stat=,command=] *)
Definition psLineRegex : list Rx.atom :=
  [ Rx.Atom Rx.space (Rx.Greedy 0);
    Rx.Atom Rx.nonSpace (Rx.Greedy 1);
    Rx.Atom Rx.space (Rx.Greedy 1);
    Rx.Atom Rx.nonSpace (Rx.Greedy 1);
    Rx.Atom Rx.space (Rx.Greedy 1);
    Rx.Atom Rx.dot (Rx.Greedy 1) ].

Definition newline : ascii := ascii_of_nat 10.

(** One line of the [ps] table: a foreground process (a [+] in its state)
    adds its command line to the list of its terminal. *)
Definition groupForegroundLine (fgByTty : gmap string (list string))
    (line : string) : gmap string (list string) :=
  match Rx.exec psLineRegex line with
  | Some [_; tty; _; stat; _; cmd] =>
      if Js.includes stat "+"
      then <[tty := (default [] (fgByTty !! tty) ++ [cmd])%list]> fgByTty
      else fgByTty
  | _ => fgByTty
  end.

Definition groupForeground (psOutput : string) : gmap string (list string) :=
  foldl groupForegroundLine ∅ (Js.split newline psOutput).

(** The body of the loop over the terminals of the tabs. *)
Definition matchTtyStep (fgByTty : gmap string (list string))
    (i : nat) (ttyPath : string) (result : gmap Z string) : gmap Z string :=
  let tty := Js.replaceFirst "/dev/" "" ttyPath in
  match fgByTty !! tty with
  | None => result
  | Some cmds =>
      let combined := Js.toLowerCase (Js.join " " cmds) in
      if Js.includes combined "claude"
         || Js.includes combined ".local/share/claude/"
      then <[Z.of_nat i + 1 := "claude"]> result
      else if Js.includes combined "codex"
      then <[Z.of_nat i + 1 := "codex"]> result
      else if Js.includes combined "ssh "
      then <[Z.of_nat i + 1 := "ssh"]> result
      else if Js.includes combined "vim" || Js.includes combined "nvim"
      then <[Z.of_nat i + 1 := "vim"]> result
      else result
  end.

Definition matchTtyPrograms (ttys : list string) (psOutput : string)
    : gmap Z string :=
  if (length ttys =? 0)%nat || String.eqb psOutput "" then ∅
  else forEachIndex (matchTtyStep (groupForeground psOutput)) 0 ttys ∅.

(** ** Module state *)

Definition POLL_INTERVAL_MS : Z := 3000.

(** After a notification, the number of polls during which tabs are watched
    for a transition from processing to idle. *)
Definition NOTIFICATION_WINDOW_POLLS : Z := 4.

(** One reading of the terminal: the result of [getTabInfo] with the
    frontmost check filled in. *)
Record TabInfo := {
  names : list string;
  activeIndex : Z;
  prompts : list bool;
  processing : list bool;
  frontmost : bool;
  ttys : list string
}.

(** The module-level variables.  [visibleActions] keeps the insertion order
    of the [Map] from action id to tracked tab index; [logStreamProcess] and
    [pollTimer] record whether the child process and the timer exist;
    [logBuffer] is the line buffer of the running log stream. *)
Record State := {
  attentionTabs : gset Z;
  pollCount : Z;
  prevPromptState : gmap Z bool;
  lastProcessingPoll : gmap Z Z;
  prevProcessingState : gmap Z bool;
  logStreamProcess : bool;
  logBuffer : string;
  notificationPending : bool;
  notificationProject : option string;
  notificationWindowEnd : Z;
  visibleActions : list (string * Z);
  pollTimer : bool;
  pollInProgress : bool
}.

Definition initialState : State := {|
  attentionTabs := ∅;
  pollCount := 0;
  prevPromptState := ∅;
  lastProcessingPoll := ∅;
  prevProcessingState := ∅;
  logStreamProcess := false;
  logBuffer := "";
  notificationPending := false;
  notificationProject := None;
  notificationWindowEnd := -1;
  visibleActions := [];
  pollTimer := false;
  pollInProgress := false
|}.

(** Assignments to one variable. *)
Definition set_attentionTabs (v : gset Z) (st : State) : State :=
  {| attentionTabs := v;
     pollCount := pollCount st;
     prevPromptState := prevPromptState st;
     lastProcessingPoll := lastProcessingPoll st;
     prevProcessingState := prevProcessingState st;
     logStreamProcess := logStreamProcess st;
     logBuffer := logBuffer st;
     notificationPending := notificationPending st;
     notificationProject := notificationProject st;
     notificationWindowEnd := notificationWindowEnd st;
     visibleActions := visibleActions st;
     pollTimer := pollTimer st;
     pollInProgress := pollInProgress st |}.

Definition set_pollCount (v : Z) (st : State) : State :=
  {| attentionTabs := attentionTabs st;
     pollCount := v;
     prevPromptState := prevPromptState st;
     lastProcessingPoll := lastProcessingPoll st;
     prevProcessingState := prevProcessingState st;
     logStreamProcess := logStreamProcess st;
     logBuffer := logBuffer st;
     notificationPending := notificationPending st;
     notificationProject := notificationProject st;
     notificationWindowEnd := notificationWindowEnd st;
     visibleActions := visibleActions st;
     pollTimer := pollTimer st;
     pollInProgress := pollInProgress st |}.

Definition set_prevPromptState (v : gmap Z bool) (st : State) : State :=
  {| attentionTabs := attentionTabs st;
     pollCount := pollCount st;
     prevPromptState := v;
     lastProcessingPoll := lastProcessingPoll st;
     prevProcessingState := prevProcessingState st;
     logStreamProcess := logStreamProcess st;
     logBuffer := logBuffer st;
     notificationPending := notificationPending st;
     notificationProject := notificationProject st;
     notificationWindowEnd := notificationWindowEnd st;
     visibleActions := visibleActions st;
     pollTimer := pollTimer st;
     pollInProgress := pollInProgress st |}.

Definition set_lastProcessingPoll (v : gmap Z Z) (st : State) : State :=
  {| attentionTabs := attentionTabs st;
     pollCount := pollCount st;
     prevPromptState := prevPromptState st;
     lastProcessingPoll := v;
     prevProcessingState := prevProcessingState st;
     logStreamProcess := logStreamProcess st;
     logBuffer := logBuffer st;
     notificationPending := notificationPending st;
     notificationProject := notificationProject st;
     notificationWindowEnd := notificationWindowEnd st;
     visibleActions := visibleActions st;
     pollTimer := pollTimer st;
     pollInProgress := pollInProgress st |}.

Definition set_prevProcessingState (v : gmap Z bool) (st : State) : State :=
  {| attentionTabs := attentionTabs st;
     pollCount := pollCount st;
     prevPromptState := prevPromptState st;
     lastProcessingPoll := lastProcessingPoll st;
     prevProcessingState := v;
     logStreamProcess := logStreamProcess st;
     logBuffer := logBuffer st;
     notificationPending := notificationPending st;
     notificationProject := notificationProject st;
     notificationWindowEnd := notificationWindowEnd st;
     visibleActions := visibleActions st;
     pollTimer := pollTimer st;
     pollInProgress := pollInProgress st |}.

Definition set_logStreamProcess (v : bool) (st : State) : State :=
  {| attentionTabs := attentionTabs st;
     pollCount := pollCount st;
     prevPromptState := prevPromptState st;
     lastProcessingPoll := lastProcessingPoll st;
     prevProcessingState := prevProcessingState st;
     logStreamProcess := v;
     logBuffer := logBuffer st;
     notificationPending := notificationPending st;
     notificationProject := notificationProject st;
     notificationWindowEnd := notificationWindowEnd st;
     visibleActions := visibleActions st;
     pollTimer := pollTimer st;
     pollInProgress := pollInProgress st |}.

Definition set_logBuffer (v : string) (st : State) : State :=
  {| attentionTabs := attentionTabs st;
     pollCount := pollCount st;
     prevPromptState := prevPromptState st;
     lastProcessingPoll := lastProcessingPoll st;
     prevProcessingState := prevProcessingState st;
     logStreamProcess := logStreamProcess st;
     logBuffer := v;
     notificationPending := notificationPending st;
     notificationProject := notificationProject st;
     notificationWindowEnd := notificationWindowEnd st;
     visibleActions := visibleActions st;
     pollTimer := pollTimer st;
     pollInProgress := pollInProgress st |}.

Definition set_notificationPending (v : bool) (st : State) : State :=
  {| attentionTabs := attentionTabs st;
     pollCount := pollCount st;
     prevPromptState := prevPromptState st;
     lastProcessingPoll := lastProcessingPoll st;
     prevProcessingState := prevProcessingState st;
     logStreamProcess := logStreamProcess st;
     logBuffer := logBuffer st;
     notificationPending := v;
     notificationProject := notificationProject st;
     notificationWindowEnd := notificationWindowEnd st;
     visibleActions := visibleActions st;
     pollTimer := pollTimer st;
     pollInProgress := pollInProgress st |}.

Definition set_notificationProject (v : option string) (st : State) : State :=
  {| attentionTabs := attentionTabs st;
     pollCount := pollCount st;
     prevPromptState := prevPromptState st;
     lastProcessingPoll := lastProcessingPoll st;
     prevProcessingState := prevProcessingState st;
     logStreamProcess := logStreamProcess st;
     logBuffer := logBuffer st;
     notificationPending := notificationPending st;
     notificationProject := v;
     notificationWindowEnd := notificationWindowEnd st;
     visibleActions := visibleActions st;
     pollTimer := pollTimer st;
     pollInProgress := pollInProgress st |}.

Definition set_notificationWindowEnd (v : Z) (st : State) : State :=
  {| attentionTabs := attentionTabs st;
     pollCount := pollCount st;
     prevPromptState := prevPromptState st;
     lastProcessingPoll := lastProcessingPoll st;
     prevProcessingState := prevProcessingState st;
     logStreamProcess := logStreamProcess st;
     logBuffer := logBuffer st;
     notificationPending := notificationPending st;
     notificationProject := notificationProject st;
     notificationWindowEnd := v;
     visibleActions := visibleActions st;
     pollTimer := pollTimer st;
     pollInProgress := pollInProgress st |}.

Definition set_visibleActions (v : list (string * Z)) (st : State) : State :=
  {| attentionTabs := attentionTabs st;
     pollCount := pollCount st;
     prevPromptState := prevPromptState st;
     lastProcessingPoll := lastProcessingPoll st;
     prevProcessingState := prevProcessingState st;
     logStreamProcess := logStreamProcess st;
     logBuffer := logBuffer st;
     notificationPending := notificationPending st;
     notificationProject := notificationProject st;
     notificationWindowEnd := notificationWindowEnd st;
     visibleActions := v;
     pollTimer := pollTimer st;
     pollInProgress := pollInProgress st |}.

Definition set_pollTimer (v : bool) (st : State) : State :=
  {| attentionTabs := attentionTabs st;
     pollCount := pollCount st;
     prevPromptState := prevPromptState st;
     lastProcessingPoll := lastProcessingPoll st;
     prevProcessingState := prevProcessingState st;
     logStreamProcess := logStreamProcess st;
     logBuffer := logBuffer st;
     notificationPending := notificationPending st;
     notificationProject := notificationProject st;
     notificationWindowEnd := notificationWindowEnd st;
     visibleActions := visibleActions st;
     pollTimer := v;
     pollInProgress := pollInProgress st |}.

Definition set_pollInProgress (v : bool) (st : State) : State :=
  {| attentionTabs := attentionTabs st;
     pollCount := pollCount st;
     prevPromptState := prevPromptState st;
     lastProcessingPoll := lastProcessingPoll st;
     prevProcessingState := prevProcessingState st;
     logStreamProcess := logStreamProcess st;
     logBuffer := logBuffer st;
     notificationPending := notificationPending st;
     notificationProject := notificationProject st;
     notificationWindowEnd := notificationWindowEnd st;
     visibleActions := visibleActions st;
     pollTimer := pollTimer st;
     pollInProgress := v |}.

(** ** Notification monitoring *)

Definition DEFAULT_NOTIFICATION_MATCHERS : list string :=
  ["com.googlecode.iterm2"; "heyagent"; "HeyAgent"].

(** The matcher list: the environment value when it is set and not empty,
    the defaults otherwise; split at commas, trimmed, empty items dropped. *)
Definition NOTIFICATION_MATCHERS (env : option string) : list string :=
  let source :=
    match env with
    | Some e => if String.eqb e "" then Js.join "," DEFAULT_NOTIFICATION_MATCHERS else e
    | None => Js.join "," DEFAULT_NOTIFICATION_MATCHERS
    end in
  filter (fun m => negb (String.eqb m "") = true)
         (map Js.trim (Js.split "," source)).

(** The record of the side-channel file, with the types the module declares
    for it: a field that is absent is [None]; timestamps are whole
    milliseconds. *)
Record NotificationEvent := {
  project : option string;
  timestamp : option Z
}.

(** What reading and parsing the file gives: [readFileSync] throws,
    [JSON.parse] throws, the text is the JSON [null] (reading a field of it
    throws), or a value with the fields it has. *)
Inductive FileRead :=
| ReadThrows
| ParseThrows
| ParsedNull
| Parsed (data : NotificationEvent).

Definition truthyString (v : option string) : bool :=
  match v with
  | Some x => negb (String.eqb x "")
  | None => false
  end.

Definition truthyNumber (v : option Z) : bool :=
  match v with
  | Some n => negb (n =? 0)
  | None => false
  end.

(** [now] is [Date.now()].  Every exception is caught inside the function:
    the result is the record or [None] (the [null] of the source). *)
Definition readNotificationEvent (file : FileRead) (now : Z)
    : option NotificationEvent :=
  match file with
  | Parsed data =>
      if truthyString (project data) && truthyNumber (timestamp data)
         && (now - default 0 (timestamp data) <? 5000)
      then Some data else None
  | ReadThrows | ParseThrows | ParsedNull => None
  end.

(** [event?.project ?? null] *)
Definition eventProject (event : option NotificationEvent) : option string :=
  match event with
  | Some e => project e
  | None => None
  end.

(** The part of [pollTabs] that runs before its first suspension: a cycle
    already in flight makes the call a no-op, otherwise the three queries
    are started. *)
Definition pollTabs_begin (st : State) : State :=
  if pollInProgress st then st else set_pollInProgress true st.

(** The treatment of one complete line of the log stream. *)
Definition onLogLine (matchers : list string) (file : FileRead) (now : Z)
    (line : string) (st : State) : State :=
  if Js.startsWith line "Filtering" || Js.startsWith line "Timestamp"
     || String.eqb (Js.trim line) ""
  then st
  else if (length matchers =? 0)%nat then st
  else if negb (existsb (fun m => Js.includes line m) matchers) then st
  else if negb (notificationPending st) then
    let event := readNotificationEvent file now in
    pollTabs_begin
      (set_notificationPending true
         (set_notificationProject (eventProject event) st))
  else st.

(** The [data] handler of the log stream: complete lines are treated in
    order, the unfinished last line stays in the buffer. *)
Definition onLogData (matchers : list string) (file : FileRead) (now : Z)
    (chunk : string) (st : State) : State :=
  let lines := Js.split newline (logBuffer st +:+ chunk) in
  let st1 := set_logBuffer (default "" (last lines)) st in
  foldl (fun s line => onLogLine matchers file now line s) st1
        (removelast lines).

Definition startLogStream (st : State) : State :=
  if logStreamProcess st then st
  else set_logBuffer "" (set_logStreamProcess true st).

Definition stopLogStream (st : State) : State :=
  if logStreamProcess st then set_logStreamProcess false st else st.

(** The [error] and [exit] handlers of the log stream. *)
Definition onLogStreamExit (st : State) : State :=
  set_logStreamProcess false st.

(** ** Attention tracking *)

Definition addAttention (tabIdx : Z) (st : State) : State :=
  set_attentionTabs ({[tabIdx]} ∪ attentionTabs st) st.

Definition deleteAttention (tabIdx : Z) (st : State) : State :=
  set_attentionTabs (attentionTabs st ∖ {[tabIdx]}) st.

Definition timingStep (tabInfo : TabInfo) (visibleTab : Z)
    (i : nat) (_ : string) (st : State) : State :=
  let tabIdx := Z.of_nat i + 1 in
  if tabIdx =? visibleTab then st
  else
    let atPrompt := default false (prompts tabInfo !! i) in
    let isProc := default false (processing tabInfo !! i) in
    if atPrompt || isProc then st
    else
      match lastProcessingPoll st !! tabIdx with
      | Some lastActive =>
          if pollCount st - lastActive <=? 3 then addAttention tabIdx st else st
      | None => st
      end.

(** The timing heuristic: open a notification window and flag the tabs that
    recently stopped processing. *)
Definition applyTimingHeuristic (tabInfo : TabInfo) (visibleTab : Z)
    (st : State) : State :=
  let st1 :=
    set_notificationWindowEnd (pollCount st + NOTIFICATION_WINDOW_POLLS) st in
  forEachIndex (timingStep tabInfo visibleTab) 0 (names tabInfo) st1.

(** The body of the project loop; the boolean is the local [matched]. *)
Definition projectStep (project : string) (visibleTab : Z)
    (i : nat) (name : string) (acc : State * bool) : State * bool :=
  let tabIdx := Z.of_nat i + 1 in
  if tabIdx =? visibleTab then acc
  else if matchesProject name project then (addAttention tabIdx acc.1, true)
  else acc.

(** The [if (notificationPending)] block of [updateAttention]. *)
Definition consumeNotification (tabInfo : TabInfo) (visibleTab : Z)
    (st : State) : State :=
  if notificationPending st then
    let st1 := set_notificationPending false st in
    if truthyString (notificationProject st1) then
      let project := default "" (notificationProject st1) in
      let '(st2, matched) :=
        forEachIndex (projectStep project visibleTab) 0 (names tabInfo)
                     (st1, false) in
      let st3 :=
        if matched then st2 else applyTimingHeuristic tabInfo visibleTab st2 in
      set_notificationProject None st3
    else applyTimingHeuristic tabInfo visibleTab st1
  else st.

(** The body of the loop over the tabs in [updateAttention]. *)
Definition attentionStep (tabInfo : TabInfo) (visibleTab : Z)
    (inNotificationWindow : bool) (i : nat) (_ : string) (st : State)
    : State :=
  let tabIdx := Z.of_nat i + 1 in
  let atPrompt := default false (prompts tabInfo !! i) in
  let wasAtPrompt := default false (prevPromptState st !! tabIdx) in
  let isProcessing := default false (processing tabInfo !! i) in
  let wasProcessing := default false (prevProcessingState st !! tabIdx) in
  let st1 :=
    if tabIdx =? visibleTab then deleteAttention tabIdx st
    else if 0 <? pollCount st then
      let st' :=
        if inNotificationWindow && atPrompt && negb wasAtPrompt
        then addAttention tabIdx st else st in
      if inNotificationWindow && wasProcessing && negb isProcessing
      then addAttention tabIdx st' else st'
    else st in
  let st2 :=
    if isProcessing
    then set_lastProcessingPoll
           (<[tabIdx := pollCount st1]> (lastProcessingPoll st1)) st1
    else st1 in
  let st3 :=
    set_prevPromptState (<[tabIdx := atPrompt]> (prevPromptState st2)) st2 in
  set_prevProcessingState
    (<[tabIdx := isProcessing]> (prevProcessingState st3)) st3.

(** The active tab is visible only while the terminal is the frontmost
    application; [-1] stands for no visible tab. *)
Definition visibleTabOf (tabInfo : TabInfo) : Z :=
  if frontmost tabInfo then activeIndex tabInfo else -1.

Definition updateAttention (tabInfo : TabInfo) (st : State) : State :=
  let visibleTab := visibleTabOf tabInfo in
  let st1 := consumeNotification tabInfo visibleTab st in
  let inNotificationWindow := pollCount st1 <=? notificationWindowEnd st1 in
  let st2 :=
    forEachIndex (attentionStep tabInfo visibleTab inNotificationWindow)
                 0 (names tabInfo) st1 in
  let st3 :=
    if negb (logStreamProcess st2) && (0 <? length (visibleActions st2))%nat
    then startLogStream st2 else st2 in
  set_pollCount (pollCount st3 + 1) st3.

(** ** Polling *)

(** What a poll cycle shows on a button: the options handed to
    [renderButton], or the empty button. *)
Inductive ButtonImage :=
| Button (tabName program : string) (isActive hasAttention : bool)
| EmptyButton.

(** [ttyPrograms.get(idx) ?? detectProgramFromName(process)] *)
Definition tabProgram (ttyPrograms : gmap Z string) (idx : Z)
    (process : string) : string :=
  match ttyPrograms !! idx with
  | Some p => p
  | None => detectProgramFromName process
  end.

(** The image for one tracked index.  [None] is the [TypeError] of
    [parseTabName(undefined)], raised when [names[idx - 1]] is read outside
    the array. *)
Definition publishEntry (tabInfo : TabInfo) (ttyPrograms : gmap Z string)
    (flagged : gset Z) (idx : Z) : option ButtonImage :=
  if idx <=? Z.of_nat (length (names tabInfo)) then
    match Js.index (names tabInfo) (idx - 1) with
    | Some fullName =>
        let parsed := parseTabName fullName in
        let program := tabProgram ttyPrograms idx (process parsed) in
        Some (Button (displayName parsed) program
                     (idx =? activeIndex tabInfo)
                     (bool_decide (idx ∈ flagged)))
    | None => None
    end
  else Some EmptyButton.

(** The loop over [visibleActions]: the images set so far, and whether the
    loop ran to its end ([false]: an exception left it). *)
Fixpoint publish (tabInfo : TabInfo) (ttyPrograms : gmap Z string)
    (flagged : gset Z) (entries : list (string * Z))
    : list (string * ButtonImage) * bool :=
  match entries with
  | [] => ([], true)
  | (id, idx) :: rest =>
      match publishEntry tabInfo ttyPrograms flagged idx with
      | Some img =>
          let '(imgs, ok) := publish tabInfo ttyPrograms flagged rest in
          ((id, img) :: imgs, ok)
      | None => ([], false)
      end
  end.

Definition withFrontmost (tabInfo : TabInfo) (front : bool) : TabInfo :=
  {| names := names tabInfo; activeIndex := activeIndex tabInfo;
     prompts := prompts tabInfo; processing := processing tabInfo;
     frontmost := front; ttys := ttys tabInfo |}.

(** The rest of [pollTabs], run when the three queries have returned their
    results: attention update, classification, one image per tracked
    action; the in-flight mark is cleared in every case. *)
Definition pollTabs_finish (fetched : TabInfo) (psOutput : string)
    (front : bool) (st : State)
    : State * (list (string * ButtonImage) * bool) :=
  let tabInfo := withFrontmost fetched front in
  let st1 := updateAttention tabInfo st in
  let ttyPrograms := matchTtyPrograms (ttys tabInfo) psOutput in
  let out := publish tabInfo ttyPrograms (attentionTabs st1) (visibleActions st1) in
  (set_pollInProgress false st1, out).

Definition startPolling (st : State) : State :=
  if pollTimer st then st
  else set_pollTimer true (pollTabs_begin (startLogStream st)).

Definition stopPolling (st : State) : State :=
  stopLogStream (if pollTimer st then set_pollTimer false st else st).

(** ** The action *)

Fixpoint mapGet (id : string) (m : list (string * Z)) : option Z :=
  match m with
  | [] => None
  | (k, v) :: m' => if String.eqb k id then Some v else mapGet id m'
  end.

Fixpoint mapSet (id : string) (v : Z) (m : list (string * Z))
    : list (string * Z) :=
  match m with
  | [] => [(id, v)]
  | (k, w) :: m' =>
      if String.eqb k id then (k, v) :: m' else (k, w) :: mapSet id v m'
  end.

Fixpoint mapDelete (id : string) (m : list (string * Z)) : list (string * Z) :=
  match m with
  | [] => []
  | (k, w) :: m' =>
      if String.eqb k id then m' else (k, w) :: mapDelete id m'
  end.

(** The first of 1..6 that no action tracks, 1 when all are taken. *)
Definition autoTabIndex (used : list Z) : Z :=
  default 1 (head (filter (fun i => i ∉ used) [1; 2; 3; 4; 5; 6])).

(** [settingsTabIndex] is [ev.payload.settings.tabIndex]; an absent value
    and 0 are falsy and replaced by the automatic index. *)
Definition onWillAppear (id : string) (settingsTabIndex : option Z)
    (st : State) : State :=
  let tabIndex :=
    if truthyNumber settingsTabIndex then default 0 settingsTabIndex
    else autoTabIndex (map snd (visibleActions st)) in
  startPolling (set_visibleActions (mapSet id tabIndex (visibleActions st)) st).

Definition onWillDisappear (id : string) (st : State) : State :=
  let st1 := set_visibleActions (mapDelete id (visibleActions st)) st in
  if (length (visibleActions st1) =? 0)%nat then stopPolling st1 else st1.

(** [switchToTab]: the command is best effort, a failure is logged and
    changes nothing. *)
Definition switchToTab (tabIndex : Z) (succeeds : bool) (st : State) : State :=
  st.

(** [onKeyDown] up to the call of [switchToTab]: the tracked index and the
    state in which the command is issued, [None] when the action is not
    tracked. *)
Definition onKeyDown_beforeSwitch (id : string) (st : State)
    : option (Z * State) :=
  match mapGet id (visibleActions st) with
  | None => None
  | Some tabIndex => Some (tabIndex, pollTabs_begin (deleteAttention tabIndex st))
  end.

Definition onKeyDown (id : string) (switchSucceeds : bool) (st : State)
    : State :=
  match onKeyDown_beforeSwitch id st with
  | None => st
  | Some (tabIndex, st1) => switchToTab tabIndex switchSucceeds st1
  end.

(** ** Vocabulary of the statements *)

(** [t] is the 1-based index of a tab of the reading. *)
Definition isTab (tabInfo : TabInfo) (t : Z) : Prop :=
  1 <= t <= Z.of_nat (length (names tabInfo)).

(** [prompts[t - 1] ?? false] and [processing[t - 1] ?? false] *)
Definition promptAt (tabInfo : TabInfo) (t : Z) : bool :=
  default false (prompts tabInfo !! Z.to_nat (t - 1)).

Definition processingAt (tabInfo : TabInfo) (t : Z) : bool :=
  default false (processing tabInfo !! Z.to_nat (t - 1)).

(** The values recorded by the previous poll. *)
Definition wasAtPrompt (st : State) (t : Z) : bool :=
  default false (prevPromptState st !! t).

Definition wasProcessing (st : State) (t : Z) : bool :=
  default false (prevProcessingState st !! t).

(** Rising edge on "at shell prompt", falling edge on "is processing". *)
Definition risingPrompt (tabInfo : TabInfo) (st : State) (t : Z) : bool :=
  promptAt tabInfo t && negb (wasAtPrompt st t).

Definition fallingProcessing (tabInfo : TabInfo) (st : State) (t : Z) : bool :=
  wasProcessing st t && negb (processingAt tabInfo t).

(** The tabs the timing heuristic looks for: not visible, neither
    processing nor at a prompt, last seen processing at most 3 polls ago. *)
Definition recentlyFinished (tabInfo : TabInfo) (visibleTab : Z) (st : State)
    (t : Z) : Prop :=
  isTab tabInfo t /\ t <> visibleTab /\
  promptAt tabInfo t = false /\ processingAt tabInfo t = false /\
  exists lastActive,
    lastProcessingPoll st !! t = Some lastActive /\
    pollCount st - lastActive <= 3.

(** The tabs a correlation hint selects: not visible, display name
    containing the hint whatever the case. *)
Definition projectTab (tabInfo : TabInfo) (visibleTab : Z) (hint : string)
    (t : Z) : Prop :=
  t <> visibleTab /\
  exists name, Js.index (names tabInfo) (t - 1) = Some name /\
               matchesProject name hint = true.

(** Polls in a row with no notification arriving in between. *)
Definition runPolls (readings : list TabInfo) (st : State) : State :=
  foldl (fun s tabInfo => updateAttention tabInfo s) st readings.

(** A line of the log stream that passes every filter of the handler. *)
Definition isNotificationLine (matchers : list string) (line : string) : bool :=
  negb (Js.startsWith line "Filtering" || Js.startsWith line "Timestamp"
        || String.eqb (Js.trim line) "")
  && negb (length matchers =? 0)%nat
  && existsb (fun m => Js.includes line m) matchers.

(** The variables an iteration of the attention loop leaves alone. *)
Definition sameSignal (a b : State) : Prop :=
  pollCount a = pollCount b /\
  notificationWindowEnd a = notificationWindowEnd b /\
  notificationPending a = notificationPending b /\
  notificationProject a = notificationProject b /\
  visibleActions a = visibleActions b /\
  logStreamProcess a = logStreamProcess b.

(** [b] is [a] with another flagged set. *)
Definition onlyFlagged (a b : State) : Prop :=
  b = set_attentionTabs (attentionTabs b) a.

(** ** Sample runs *)

Module Sample.

Definition line : string :=
  "2024-05-01 12:00:00.000 usernoted: delivered com.googlecode.iterm2".

(** Three buttons dragged onto the deck: they track the tabs 1, 2 and 3. *)
Definition started : State :=
  onWillAppear "button-3" None
    (onWillAppear "button-2" None
       (onWillAppear "button-1" None initialState)).

(** A notification with the hint [api], written 1 s before it is read. *)
Definition apiFile : FileRead :=
  Parsed {| project := Some "api"; timestamp := Some 1700000000000 |}.

Definition signalled : State :=
  onLogLine DEFAULT_NOTIFICATION_MATCHERS apiFile 1700000001000 line started.

Definition threeTabs : TabInfo :=
  {| names := ["web (zsh)"; "db (psql)"; "api (node)"];
     activeIndex := 1;
     prompts := [false; false; false];
     processing := [false; false; true];
     frontmost := true;
     ttys := ["/dev/ttys001"; "/dev/ttys002"; "/dev/ttys003"] |}.

Definition flagged : State := updateAttention threeTabs signalled.

(** The next reading: the first tab has an empty name, which [getTabInfo]
    drops from [names], and the third tab is now the active one. *)
Definition unnamedFirstTab : TabInfo :=
  {| names := ["db (psql)"; "api (node)"];
     activeIndex := 3;
     prompts := [false; false; false];
     processing := [false; false; false];
     frontmost := true;
     ttys := ["/dev/ttys001"; "/dev/ttys002"; "/dev/ttys003"] |}.

(** A notification without a hint that arrives before the first poll. *)
Definition signalledFirst : State :=
  onLogLine DEFAULT_NOTIFICATION_MATCHERS ReadThrows 1700000001000 line started.

Definition atPrompt : TabInfo :=
  {| names := ["build (zsh)"];
     activeIndex := 1;
     prompts := [true];
     processing := [false];
     frontmost := false;
     ttys := ["/dev/ttys001"] |}.

(** A later notification with another hint. *)
Definition webFile : FileRead :=
  Parsed {| project := Some "web"; timestamp := Some 1700000002000 |}.

(** Two tabs, the second one busy; then a notification without a hint;
    then the second tab back at its prompt. *)
Definition busy : TabInfo :=
  {| names := ["notes (vim)"; "build (npm)"];
     activeIndex := 1;
     prompts := [false; false];
     processing := [false; true];
     frontmost := true;
     ttys := ["/dev/ttys001"; "/dev/ttys002"] |}.

Definition idle : TabInfo :=
  {| names := ["notes (vim)"; "build (npm)"];
     activeIndex := 1;
     prompts := [false; true];
     processing := [false; false];
     frontmost := true;
     ttys := ["/dev/ttys001"; "/dev/ttys002"] |}.

Definition quiet : TabInfo :=
  {| names := ["notes (vim)"; "build (npm)"];
     activeIndex := 1;
     prompts := [false; false];
     processing := [false; false];
     frontmost := true;
     ttys := ["/dev/ttys001"; "/dev/ttys002"] |}.

Definition afterBusy : State := updateAttention busy started.

Definition signalledLater : State :=
  onLogLine DEFAULT_NOTIFICATION_MATCHERS ReadThrows 1700000001000 line afterBusy.

(** A process table: an agent run by an interpreter on the first terminal,
    an editor on the second, a background job on the third. *)
Definition psTable : string :=
  Js.join (String newline "")
    ["ttys001  S+   /usr/bin/python3 /Users/me/.local/share/claude/cli.py";
     "ttys002  S+   /usr/bin/python3 /opt/codex/cli.py --quiet";
     "ttys003  S    /usr/bin/python3 server.py";
     "??       Ss   /usr/sbin/syslogd"].

End Sample.


(** ** More vocabulary *)

(** Every character of [s] is in the class [c]. *)
Fixpoint everyChar (c : ascii -> bool) (s : string) : bool :=
  match s with
  | EmptyString => true
  | String a s' => c a && everyChar c s'
  end.

(** The text an atom may match: characters of its class, one of them for
    [Once], at least [min] of them for a repetition. *)
Definition atomAccepts (a : Rx.atom) (g : string) : Prop :=
  everyChar (Rx.cls a) g = true /\
  match Rx.rep a with
  | Rx.Once => String.length g = 1%nat
  | Rx.Greedy min | Rx.Lazy min => (min <= String.length g)%nat
  end.

Fixpoint concatStrings (l : list string) : string :=
  match l with
  | [] => EmptyString
  | x :: l' => x +:+ concatStrings l'
  end.

(** ** Button rendering: the text of the label *)

(** The horizontal ellipsis U+2026, one code unit; among the 8-bit code
    units of this model it is given the code 133, a control character that
    is neither white space nor a letter. *)
Definition ellipsis : ascii := ascii_of_nat 133.

Definition strLen (s : string) : Z := Z.of_nat (String.length s).

Fixpoint takeChars (n : nat) (s : string) : string :=
  match n, s with
  | S n', String c s' => String c (takeChars n' s')
  | _, _ => EmptyString
  end.

(** [s.slice(0, e)]: a negative [e] counts from the end. *)
Definition sliceTo (s : string) (e : Z) : string :=
  if e <? 0 then takeChars (Z.to_nat (Z.max (strLen s + e) 0)) s
  else takeChars (Z.to_nat e) s.

(** [s.endsWith(c)] for one character *)
Fixpoint endsWithChar (c : ascii) (s : string) : bool :=
  match s with
  | EmptyString => false
  | String a EmptyString => Ascii.eqb a c
  | String _ s' => endsWithChar c s'
  end.

(** [text.split(/\s+/)]: the words between runs of white space, with an
    empty first or last word when the text starts or ends with white
    space.  [skipping] tells that the character before was white space. *)
Fixpoint splitSpaces (skipping : bool) (s : string) : list string :=
  match s with
  | EmptyString => [EmptyString]
  | String c s' =>
      if Js.isWhiteSpace c then
        if skipping then splitSpaces true s'
        else EmptyString :: splitSpaces true s'
      else
        match splitSpaces false s' with
        | [] => [String c EmptyString]
        | w :: ws => String c w :: ws
        end
  end.

(** A line as it is pushed: cut to [maxChars - 1] characters and an
    ellipsis when it is longer than [maxChars]. *)
Definition clipLine (maxChars : Z) (line : string) : string :=
  if maxChars <? strLen line
  then sliceTo line (maxChars - 1) +:+ String ellipsis ""
  else line.

(** The loop over the words of [wrapText]: the lines pushed and the line
    being filled, when the words are used up or the loop is left by
    [break]. *)
Fixpoint wrapLoop (maxChars maxLines : Z) (words : list string)
    (lines : list string) (current : string) : list string * string :=
  match words with
  | [] => (lines, current)
  | word :: rest =>
      if String.eqb current "" then wrapLoop maxChars maxLines rest lines word
      else if strLen (current +:+ " " +:+ word) <=? maxChars
      then wrapLoop maxChars maxLines rest lines (current +:+ " " +:+ word)
      else
        let lines' := (lines ++ [clipLine maxChars current])%list in
        if maxLines - 1 <=? Z.of_nat (length lines') then (lines', word)
        else wrapLoop maxChars maxLines rest lines' word
  end.

Definition wrapText (text : string) (maxChars maxLines : Z) : list string :=
  if strLen text <=? maxChars then [text]
  else
    let '(lines, current) :=
      wrapLoop maxChars maxLines (splitSpaces false text) [] "" in
    if (Z.of_nat (length lines) <? maxLines) && negb (String.eqb current "")
    then (lines ++ [clipLine maxChars current])%list
    else if (maxLines <=? Z.of_nat (length lines))
            && negb (String.eqb current "")
    then match last lines with
         | Some l =>
             (removelast lines
              ++ [clipLine maxChars (l +:+ " " +:+ current)])%list
         | None => lines
         end
    else lines.

Record FontTier := { fontSize : Z; maxChars : Z; lineHeight : Z }.

Definition fontTiers : list FontTier :=
  [ {| fontSize := 24; maxChars := 9; lineHeight := 28 |};
    {| fontSize := 20; maxChars := 11; lineHeight := 25 |};
    {| fontSize := 18; maxChars := 12; lineHeight := 23 |} ].

Definition smallestTier : FontTier :=
  {| fontSize := 18; maxChars := 12; lineHeight := 23 |}.

(** The first tier in which the name wraps without an ellipsis at the end
    of a line, the last tier when there is none. *)
Definition pickTier (tabName : string) : FontTier :=
  default smallestTier
    (find (fun t => negb (existsb (endsWithChar ellipsis)
                            (wrapText tabName (maxChars t) 3)))
          fontTiers).

(** The lines of text [renderButton] draws. *)
Definition buttonLines (tabName : string) : list string :=
  wrapText tabName (maxChars (pickTier tabName)) 3.

(** ** Button rendering: escaping *)

Definition quote : ascii := ascii_of_nat 34.

(** [s.replace(/c/g, rep)] for a one-character pattern. *)
Fixpoint replaceAllChar (c : ascii) (rep : string) (s : string) : string :=
  match s with
  | EmptyString => EmptyString
  | String a s' =>
      if Ascii.eqb a c then rep +:+ replaceAllChar c rep s'
      else String a (replaceAllChar c rep s')
  end.

Definition escapeXml (s : string) : string :=
  replaceAllChar quote "&quot;"
    (replaceAllChar ">" "&gt;"
       (replaceAllChar "<" "&lt;"
          (replaceAllChar "&" "&amp;" s))).

(** What [escapeXml] makes of one character. *)
Definition escapeChar (c : ascii) : string :=
  if Ascii.eqb c "&" then "&amp;"
  else if Ascii.eqb c "<" then "&lt;"
  else if Ascii.eqb c ">" then "&gt;"
  else if Ascii.eqb c quote then "&quot;"
  else String c "".

Fixpoint escapeEach (s : string) : string :=
  match s with
  | EmptyString => EmptyString
  | String c s' => escapeChar c +:+ escapeEach s'
  end.

(** The characters XML gives a meaning to in text and attribute values. *)
Definition isMarkup (c : ascii) : bool :=
  Ascii.eqb c "&" || Ascii.eqb c "<" || Ascii.eqb c ">" || Ascii.eqb c quote.

(** ** The module as a transition system *)

(** What can happen to the module: the three events of the action, a
    chunk of log output (with what reading the file and the clock give at
    that moment), the end of the log stream, a tick of the poll timer, and
    the end of a poll cycle with the results of its three queries.  Each
    handler is one step; a poll cycle is two, its start and its end, and
    other events may fall between them. *)
Inductive Event :=
| WillAppear (id : string) (settingsTabIndex : option Z)
| WillDisappear (id : string)
| KeyDown (id : string) (switchSucceeds : bool)
| LogData (file : FileRead) (now : Z) (chunk : string)
| LogStreamExit
| TimerTick
| PollDone (fetched : TabInfo) (psOutput : string) (front : bool).

Definition handle (matchers : list string) (e : Event) (st : State) : State :=
  match e with
  | WillAppear id settingsTabIndex => onWillAppear id settingsTabIndex st
  | WillDisappear id => onWillDisappear id st
  | KeyDown id switchSucceeds => onKeyDown id switchSucceeds st
  | LogData file now chunk => onLogData matchers file now chunk st
  | LogStreamExit => onLogStreamExit st
  | TimerTick => pollTabs_begin st
  | PollDone fetched psOutput front =>
      (pollTabs_finish fetched psOutput front st).1
  end.

(** Settings never carry a negative tab index. *)
Definition eventOk (e : Event) : Prop :=
  match e with
  | WillAppear _ (Some n) => 0 <= n
  | _ => True
  end.

(** What holds of the module variables at every moment. *)
Record Invariant (st : State) : Prop := {
  inv_flagged : forall t, t ∈ attentionTabs st -> 1 <= t;
  inv_pollCount : 0 <= pollCount st;
  inv_window : notificationWindowEnd st <= pollCount st + 3;
  inv_stamps : forall t p,
    lastProcessingPoll st !! t = Some p -> 0 <= p < pollCount st;
  inv_hint : notificationPending st = false ->
             truthyString (notificationProject st) = false;
  inv_buffer : Js.includes (logBuffer st) (String newline "") = false;
  inv_ids : NoDup (map fst (visibleActions st));
  inv_indices : Forall (fun e => 1 <= e.2) (visibleActions st)
}.

(** Two buttons appear, a notification with the hint [api] is logged in
    two chunks, a poll runs, the second button is pressed and removed. *)
Definition sampleSession : list Event :=
  [ WillAppear "button-1" None;
    WillAppear "button-2" (Some 3);
    LogData Sample.apiFile 1700000001000 "2024-05-01 12:00:00.000 usernoted: ";
    LogData Sample.apiFile 1700000001000
      ("delivered com.googlecode.iterm2" +:+ String newline "");
    PollDone Sample.threeTabs Sample.psTable true;
    TimerTick;
    KeyDown "button-2" true;
    PollDone Sample.unnamedFirstTab Sample.psTable true;
    LogStreamExit;
    WillDisappear "button-2" ].
(** * Properties *)

(** Membership in a concrete flagged set, by evaluation. *)
Lemma flagged_by_evaluation (t : Z) (X : gset Z) :
  bool_decide (t ∈ X) = true -> t ∈ X.
Proof. apply bool_decide_eq_true_1. Qed.

Lemma not_flagged_by_evaluation (t : Z) (X : gset Z) :
  bool_decide (t ∈ X) = false -> t ∉ X.
Proof. apply bool_decide_eq_false_1. Qed.

(** ** Loops over the tabs *)

(** A property of the state that every iteration preserves holds after the
    loop. *)
Lemma forEachIndex_preserves {A T} (P : T -> Prop) (body : nat -> A -> T -> T) :
  (forall i x s, P s -> P (body i x s)) ->
  forall a i s, P s -> P (forEachIndex body i a s).
Proof.
  intros Hbody a. induction a as [|x a IH]; intros i s Hs; simpl; auto.
Qed.

Lemma tabIdx_to_nat (i : nat) : Z.to_nat (Z.of_nat i + 1 - 1) = i.
Proof. lia. Qed.

Lemma attentionStep_sameSignal tabInfo v w i x st :
  sameSignal st (attentionStep tabInfo v w i x st).
Proof.
  unfold attentionStep, sameSignal, addAttention, deleteAttention.
  cbv zeta. repeat case_match; simpl; repeat split; reflexivity.
Qed.

Lemma attentionLoop_sameSignal tabInfo v w a i st :
  sameSignal st (forEachIndex (attentionStep tabInfo v w) i a st).
Proof.
  apply (forEachIndex_preserves (sameSignal st)).
  - intros j x s Hs. pose proof (attentionStep_sameSignal tabInfo v w j x s).
    unfold sameSignal in *. intuition congruence.
  - by repeat split.
Qed.

(** What one iteration does to the flagged set. *)
Lemma attentionStep_flagged tabInfo v w i x st :
  let t := Z.of_nat i + 1 in
  attentionTabs (attentionStep tabInfo v w i x st) =
    if t =? v then attentionTabs st ∖ {[t]}
    else if (0 <? pollCount st) && w
            && (risingPrompt tabInfo st t || fallingProcessing tabInfo st t)
         then {[t]} ∪ attentionTabs st
         else attentionTabs st.
Proof.
  unfold attentionStep, risingPrompt, fallingProcessing, promptAt,
    processingAt, wasAtPrompt, wasProcessing, addAttention, deleteAttention.
  cbv zeta. rewrite tabIdx_to_nat.
  destruct (Z.of_nat i + 1 =? v); [by destruct (default false (processing tabInfo !! i))|].
  destruct (0 <? pollCount st), w,
    (default false (prompts tabInfo !! i)),
    (default false (prevPromptState st !! (Z.of_nat i + 1))),
    (default false (processing tabInfo !! i)),
    (default false (prevProcessingState st !! (Z.of_nat i + 1)));
    simpl; try reflexivity; set_solver.
Qed.

Lemma attentionStep_prevPrompt tabInfo v w i x st :
  prevPromptState (attentionStep tabInfo v w i x st)
  = <[Z.of_nat i + 1 := promptAt tabInfo (Z.of_nat i + 1)]> (prevPromptState st).
Proof.
  unfold attentionStep, promptAt, addAttention, deleteAttention.
  cbv zeta. rewrite tabIdx_to_nat. repeat case_match; reflexivity.
Qed.

Lemma attentionStep_prevProcessing tabInfo v w i x st :
  prevProcessingState (attentionStep tabInfo v w i x st)
  = <[Z.of_nat i + 1 := processingAt tabInfo (Z.of_nat i + 1)]>
      (prevProcessingState st).
Proof.
  unfold attentionStep, processingAt, addAttention, deleteAttention.
  cbv zeta. rewrite tabIdx_to_nat. repeat case_match; reflexivity.
Qed.

Lemma attentionStep_edges_other tabInfo v w i x st t :
  t <> Z.of_nat i + 1 ->
  risingPrompt tabInfo (attentionStep tabInfo v w i x st) t
    = risingPrompt tabInfo st t /\
  fallingProcessing tabInfo (attentionStep tabInfo v w i x st) t
    = fallingProcessing tabInfo st t.
Proof.
  intros Hne. unfold risingPrompt, fallingProcessing, wasAtPrompt, wasProcessing.
  rewrite attentionStep_prevPrompt, attentionStep_prevProcessing.
  by rewrite !lookup_insert_ne.
Qed.

Lemma attentionLoop_prevPrompt tabInfo v w a : forall i st t,
  prevPromptState (forEachIndex (attentionStep tabInfo v w) i a st) !! t =
    if decide (Z.of_nat i + 1 <= t <= Z.of_nat i + Z.of_nat (length a))
    then Some (promptAt tabInfo t) else prevPromptState st !! t.
Proof.
  induction a as [|x a IH]; intros i st t; simpl.
  - case_decide; [lia | done].
  - rewrite IH, attentionStep_prevPrompt.
    destruct (decide (t = Z.of_nat i + 1)) as [->|Hne].
    + rewrite lookup_insert_eq. repeat case_decide; try done; lia.
    + rewrite lookup_insert_ne by done. repeat case_decide; try done; lia.
Qed.

Lemma attentionLoop_prevProcessing tabInfo v w a : forall i st t,
  prevProcessingState (forEachIndex (attentionStep tabInfo v w) i a st) !! t =
    if decide (Z.of_nat i + 1 <= t <= Z.of_nat i + Z.of_nat (length a))
    then Some (processingAt tabInfo t) else prevProcessingState st !! t.
Proof.
  induction a as [|x a IH]; intros i st t; simpl.
  - case_decide; [lia | done].
  - rewrite IH, attentionStep_prevProcessing.
    destruct (decide (t = Z.of_nat i + 1)) as [->|Hne].
    + rewrite lookup_insert_eq. repeat case_decide; try done; lia.
    + rewrite lookup_insert_ne by done. repeat case_decide; try done; lia.
Qed.

(** The flagged set after the loop: a tab is flagged when an edge rule
    fired for it, or when it was flagged before and is not the visible tab
    met by the loop. *)
Lemma attentionLoop_flagged tabInfo v w a : forall i st t,
  t ∈ attentionTabs (forEachIndex (attentionStep tabInfo v w) i a st) <->
    (Z.of_nat i + 1 <= t <= Z.of_nat i + Z.of_nat (length a) /\
     t <> v /\ 0 < pollCount st /\ w = true /\
     (risingPrompt tabInfo st t || fallingProcessing tabInfo st t) = true)
    \/ (t ∈ attentionTabs st /\
        ~ (t = v /\ Z.of_nat i + 1 <= t <= Z.of_nat i + Z.of_nat (length a))).
Proof.
  induction a as [|x a IH]; intros i st t; simpl.
  - split; [intros H; right; split; [done | lia] | intros [H | [H _]]; [lia | done]].
  - rewrite IH. clear IH.
    destruct (attentionStep_sameSignal tabInfo v w i x st) as (<- & _).
    pose proof (attentionStep_flagged tabInfo v w i x st) as Hfl. cbv zeta in Hfl.
    rewrite Hfl. clear Hfl.
    destruct (decide (t = Z.of_nat i + 1)) as [->|Hne].
    + destruct (Z.eqb_spec (Z.of_nat i + 1) v) as [Hv|Hv].
      * rewrite elem_of_difference, elem_of_singleton. split; intros H; [|right]; intuition lia.
      * destruct (0 <? pollCount st) eqn:Hp, w,
          (risingPrompt tabInfo st (Z.of_nat i + 1)
           || fallingProcessing tabInfo st (Z.of_nat i + 1)) eqn:He; simpl;
          rewrite ?elem_of_union, ?elem_of_singleton;
          try apply Z.ltb_lt in Hp; try apply Z.ltb_ge in Hp;
          split; intros H; intuition (try lia; try congruence).
    + destruct (attentionStep_edges_other tabInfo v w i x st t Hne) as [-> ->].
      assert (Hin : t ∈ (if Z.of_nat i + 1 =? v
                 then attentionTabs st ∖ {[Z.of_nat i + 1]}
                 else if (0 <? pollCount st) && w
                         && (risingPrompt tabInfo st (Z.of_nat i + 1)
                             || fallingProcessing tabInfo st (Z.of_nat i + 1))
                      then {[Z.of_nat i + 1]} ∪ attentionTabs st
                      else attentionTabs st) <-> t ∈ attentionTabs st).
      { repeat case_match; set_solver. }
      rewrite Hin. split; intros H; intuition lia.
Qed.

(** ** The notification block *)

Lemma onlyFlagged_refl a : onlyFlagged a a.
Proof. by destruct a. Qed.

Lemma onlyFlagged_trans a b c : onlyFlagged a b -> onlyFlagged b c -> onlyFlagged a c.
Proof.
  unfold onlyFlagged. intros Hb Hc. rewrite Hc, Hb. reflexivity.
Qed.

Lemma timingStep_onlyFlagged tabInfo v i x st :
  onlyFlagged st (timingStep tabInfo v i x st).
Proof.
  unfold timingStep, addAttention. repeat case_match;
    first [apply onlyFlagged_refl | reflexivity].
Qed.

Lemma timingLoop_onlyFlagged tabInfo v a i st :
  onlyFlagged st (forEachIndex (timingStep tabInfo v) i a st).
Proof.
  apply (forEachIndex_preserves (onlyFlagged st)); [|apply onlyFlagged_refl].
  intros j x s Hs. eapply onlyFlagged_trans; [exact Hs|apply timingStep_onlyFlagged].
Qed.

Lemma timingStep_flagged tabInfo v i x st t :
  t ∈ attentionTabs (timingStep tabInfo v i x st) <->
    t ∈ attentionTabs st \/
    (t = Z.of_nat i + 1 /\ t <> v /\
     promptAt tabInfo t = false /\ processingAt tabInfo t = false /\
     exists lastActive, lastProcessingPoll st !! t = Some lastActive /\
                        pollCount st - lastActive <= 3).
Proof.
  unfold timingStep, promptAt, processingAt, addAttention.
  destruct (Z.eqb_spec (Z.of_nat i + 1) v) as [Hv|Hv].
  { split; [by left | intros [H | (-> & H & _)]; [done | lia]]. }
  destruct (default false (prompts tabInfo !! i)) eqn:Hp; simpl.
  { split; [by left | intros [H | (-> & _ & H & _)]; [done|]].
    rewrite tabIdx_to_nat in H. congruence. }
  destruct (default false (processing tabInfo !! i)) eqn:Hq; simpl.
  { split; [by left | intros [H | (-> & _ & _ & H & _)]; [done|]].
    rewrite tabIdx_to_nat in H. congruence. }
  destruct (lastProcessingPoll st !! (Z.of_nat i + 1)) as [lastActive|] eqn:Hl.
  - destruct (Z.leb_spec (pollCount st - lastActive) 3) as [Hle|Hgt]; simpl.
    + rewrite elem_of_union, elem_of_singleton. split.
      * intros [-> | H]; [right | by left].
        rewrite tabIdx_to_nat. eauto 10.
      * intros [H | (-> & _)]; auto.
    + split; [by left | intros [H | (-> & _ & _ & _ & la & Hla & Hle)]; [done|]].
      rewrite Hl in Hla. injection Hla as ->. lia.
  - split; [by left | intros [H | (-> & _ & _ & _ & la & Hla & _)]; [done|]].
    congruence.
Qed.

Lemma timingLoop_flagged tabInfo v a : forall i st t,
  t ∈ attentionTabs (forEachIndex (timingStep tabInfo v) i a st) <->
    t ∈ attentionTabs st \/
    (Z.of_nat i + 1 <= t <= Z.of_nat i + Z.of_nat (length a) /\ t <> v /\
     promptAt tabInfo t = false /\ processingAt tabInfo t = false /\
     exists lastActive, lastProcessingPoll st !! t = Some lastActive /\
                        pollCount st - lastActive <= 3).
Proof.
  induction a as [|x a IH]; intros i st t; simpl.
  - split; [by left | intros [H | [H _]]; [done | lia]].
  - rewrite IH, timingStep_flagged.
    pose proof (timingStep_onlyFlagged tabInfo v i x st) as Hfr.
    unfold onlyFlagged in Hfr. rewrite Hfr. simpl. clear Hfr.
    split.
    + intros [[H | H] | H]; [by left | right | right]; intuition lia.
    + intros [H | (Hr & H)]; [by left; left|].
      destruct (decide (t = Z.of_nat i + 1)) as [->|Hne].
      * left; right. intuition.
      * right. intuition lia.
Qed.

(** The timing heuristic: the window ends 4 polls after the current one,
    and the tabs added to the flagged set are the recently finished ones. *)
Lemma applyTimingHeuristic_spec tabInfo v st :
  let st' := applyTimingHeuristic tabInfo v st in
  st' = set_attentionTabs (attentionTabs st')
          (set_notificationWindowEnd (pollCount st + 4) st) /\
  forall t, t ∈ attentionTabs st' <->
            t ∈ attentionTabs st \/ recentlyFinished tabInfo v st t.
Proof.
  unfold applyTimingHeuristic, NOTIFICATION_WINDOW_POLLS. cbv zeta. split.
  - apply timingLoop_onlyFlagged.
  - intros t. rewrite timingLoop_flagged. simpl.
    unfold recentlyFinished, isTab. intuition lia.
Qed.

Lemma projectStep_onlyFlagged p v i x st acc :
  onlyFlagged st acc.1 -> onlyFlagged st (projectStep p v i x acc).1.
Proof.
  unfold projectStep, addAttention. intros H. repeat case_match; simpl; try done.
  eapply onlyFlagged_trans; [exact H | reflexivity].
Qed.

(** The project loop: the flagged set gains the tabs the hint selects, and
    [matched] tells whether there is one. *)
Lemma projectLoop_spec p v a : forall i acc,
  let r := forEachIndex (projectStep p v) i a acc in
  (forall t, t ∈ attentionTabs r.1 <->
     t ∈ attentionTabs acc.1 \/
     exists k name, a !! k = Some name /\ t = Z.of_nat (i + k) + 1 /\
                    t <> v /\ matchesProject name p = true) /\
  (r.2 = true <->
     acc.2 = true \/
     exists k name, a !! k = Some name /\ Z.of_nat (i + k) + 1 <> v /\
                    matchesProject name p = true).
Proof.
  induction a as [|x a IH]; intros i acc; simpl.
  - split; [intros t|]; (split; [by left | intros [H | (k & n & H & _)]; done]).
  - destruct (IH (S i) (projectStep p v i x acc)) as [IH1 IH2]. clear IH.
    split; [intros t; rewrite IH1 | rewrite IH2]; clear IH1 IH2.
    + unfold projectStep, addAttention.
      destruct (Z.eqb_spec (Z.of_nat i + 1) v) as [Hv|Hv];
        [|destruct (matchesProject x p) eqn:Hm]; simpl;
        rewrite ?elem_of_union, ?elem_of_singleton; split.
      * intros [H | (k & n & Hk & -> & H)]; [by left | right].
        exists (S k), n. simpl. intuition lia.
      * intros [H | (k & n & Hk & -> & Hne & H)]; [by left | right].
        destruct k as [|k]; simpl in Hk; [lia|].
        exists k, n. intuition lia.
      * intros [[-> | H] | (k & n & Hk & -> & H)]; [right | by left | right].
        -- exists 0%nat, x. simpl. intuition lia.
        -- exists (S k), n. simpl. intuition lia.
      * intros [H | (k & n & Hk & -> & Hne & H)]; [by left; right |].
        destruct k as [|k]; simpl in Hk.
        -- left; left. lia.
        -- right. exists k, n. intuition lia.
      * intros [H | (k & n & Hk & -> & H)]; [by left | right].
        exists (S k), n. simpl. intuition lia.
      * intros [H | (k & n & Hk & -> & Hne & H)]; [by left | right].
        destruct k as [|k]; simpl in Hk; [injection Hk as ->; congruence|].
        exists k, n. intuition lia.
    + unfold projectStep.
      destruct (Z.eqb_spec (Z.of_nat i + 1) v) as [Hv|Hv];
        [|destruct (matchesProject x p) eqn:Hm]; simpl; split.
      * intros [H | (k & n & Hk & H)]; [by left | right].
        exists (S k), n. simpl. intuition lia.
      * intros [H | (k & n & Hk & Hne & H)]; [by left | right].
        destruct k as [|k]; simpl in Hk; [lia|].
        exists k, n. intuition lia.
      * intros _. right. exists 0%nat, x. simpl. intuition lia.
      * intros _. by left.
      * intros [H | (k & n & Hk & H)]; [by left | right].
        exists (S k), n. simpl. intuition lia.
      * intros [H | (k & n & Hk & Hne & H)]; [by left | right].
        destruct k as [|k]; simpl in Hk; [injection Hk as ->; congruence|].
        exists k, n. intuition lia.
Qed.

Lemma projectLoop_onlyFlagged p v a i st m :
  onlyFlagged st (forEachIndex (projectStep p v) i a (st, m)).1.
Proof.
  apply (forEachIndex_preserves (fun acc => onlyFlagged st acc.1)).
  - intros j x acc. apply projectStep_onlyFlagged.
  - apply onlyFlagged_refl.
Qed.

Lemma projectTab_lookup tabInfo v p t :
  projectTab tabInfo v p t <->
  exists k name, names tabInfo !! k = Some name /\ t = Z.of_nat (0 + k) + 1 /\
                 t <> v /\ matchesProject name p = true.
Proof.
  unfold projectTab, Js.index. split.
  - intros (Hv & n & Hn & Hm).
    destruct (Z.ltb_spec (t - 1) 0) as [Hlt|Hge]; [done|].
    exists (Z.to_nat (t - 1)), n. intuition lia.
  - intros (k & n & Hk & -> & Hv & Hm). split; [done|]. exists n.
    destruct (Z.ltb_spec (Z.of_nat (0 + k) + 1 - 1) 0) as [Hlt|Hge]; [lia|].
    split; [|done]. rewrite <- Hk. f_equal. lia.
Qed.

Lemma truthyString_Some (v : option string) :
  truthyString v = true <-> exists p, v = Some p /\ p <> "".
Proof.
  destruct v as [p|]; simpl.
  - destruct (String.eqb_spec p ""); simpl; split; try done.
    + intros (q & [= <-] & Hq). done.
    + intros _. by exists p.
  - split; [done | intros (p & H & _); done].
Qed.

(** No signal pending: the block does nothing. *)
Lemma consumeNotification_idle tabInfo v st :
  notificationPending st = false -> consumeNotification tabInfo v st = st.
Proof. unfold consumeNotification. by intros ->. Qed.

(** A signal without a hint: the timing heuristic runs. *)
Lemma consumeNotification_timing tabInfo v st :
  notificationPending st = true ->
  truthyString (notificationProject st) = false ->
  consumeNotification tabInfo v st
  = applyTimingHeuristic tabInfo v (set_notificationPending false st).
Proof. unfold consumeNotification. intros -> H. simpl. by rewrite H. Qed.

(** A signal whose hint selects a tab: the selected tabs are flagged and
    nothing else changes but the signal itself. *)
Lemma consumeNotification_matched tabInfo v st p :
  notificationPending st = true ->
  notificationProject st = Some p -> p <> "" ->
  (exists t, projectTab tabInfo v p t) ->
  let st' := consumeNotification tabInfo v st in
  st' = set_notificationProject None
          (set_attentionTabs (attentionTabs st')
             (set_notificationPending false st)) /\
  forall t, t ∈ attentionTabs st' <->
            t ∈ attentionTabs st \/ projectTab tabInfo v p t.
Proof.
  intros Hpend Hproj Hp Hex. unfold consumeNotification. rewrite Hpend.
  simpl. rewrite Hproj. simpl.
  destruct (String.eqb_spec p "") as [|_]; [done|]. simpl.
  pose proof (projectLoop_spec p v (names tabInfo) 0
                (set_notificationPending false st, false)) as Hspec.
  pose proof (projectLoop_onlyFlagged p v (names tabInfo) 0
                (set_notificationPending false st) false) as Hfr.
  destruct (forEachIndex (projectStep p v) 0 (names tabInfo)
              (set_notificationPending false st, false)) as [st2 matched].
  cbv zeta in Hspec. simpl in Hspec, Hfr. destruct Hspec as [Hfl Hm].
  assert (matched = true) as ->.
  { apply Hm. right. destruct Hex as (t & Ht).
    apply projectTab_lookup in Ht as (k & n & Hk & -> & Hne & Hmatch). eauto. }
  split.
  - unfold onlyFlagged in Hfr. rewrite Hfr at 1. reflexivity.
  - intros t. simpl. rewrite Hfl, projectTab_lookup. reflexivity.
Qed.

(** A signal whose hint selects no tab: the timing heuristic runs. *)
Lemma consumeNotification_unmatched tabInfo v st p :
  notificationPending st = true ->
  notificationProject st = Some p -> p <> "" ->
  (forall t, ~ projectTab tabInfo v p t) ->
  consumeNotification tabInfo v st
  = set_notificationProject None
      (applyTimingHeuristic tabInfo v (set_notificationPending false st)).
Proof.
  intros Hpend Hproj Hp Hno. unfold consumeNotification. rewrite Hpend.
  simpl. rewrite Hproj. simpl.
  destruct (String.eqb_spec p "") as [|_]; [done|]. simpl.
  pose proof (projectLoop_spec p v (names tabInfo) 0
                (set_notificationPending false st, false)) as Hspec.
  pose proof (projectLoop_onlyFlagged p v (names tabInfo) 0
                (set_notificationPending false st) false) as Hfr.
  destruct (forEachIndex (projectStep p v) 0 (names tabInfo)
              (set_notificationPending false st, false)) as [st2 matched].
  cbv zeta in Hspec. simpl in Hspec, Hfr. destruct Hspec as [Hfl Hm].
  assert (matched = false) as ->.
  { destruct matched; [|done]. destruct Hm as [Hm _].
    destruct (Hm eq_refl) as [? | (k & n & Hk & Hne & Hmatch)]; [done|].
    exfalso. apply (Hno (Z.of_nat (0 + k) + 1)).
    apply projectTab_lookup. eauto 10. }
  assert (attentionTabs st2 = attentionTabs st) as Heq.
  { apply set_eq. intros t. rewrite Hfl. split; [|by left].
    intros [H | H]; [done|]. exfalso. apply (Hno t).
    by apply projectTab_lookup. }
  unfold onlyFlagged in Hfr. rewrite Hfr, Heq.
  by replace (set_attentionTabs (attentionTabs st) (set_notificationPending false st))
    with (set_notificationPending false st) by (by destruct st).
Qed.

(** The four ways through the block. *)
Lemma consumeNotification_cases tabInfo v st :
  (notificationPending st = false) \/
  (notificationPending st = true /\ truthyString (notificationProject st) = false) \/
  (exists p, notificationPending st = true /\ notificationProject st = Some p /\
             p <> "" /\ exists t, projectTab tabInfo v p t) \/
  (exists p, notificationPending st = true /\ notificationProject st = Some p /\
             p <> "" /\ forall t, ~ projectTab tabInfo v p t).
Proof.
  destruct (notificationPending st); [|by left]. right.
  destruct (truthyString (notificationProject st)) eqn:Htr; [|by left]. right.
  apply truthyString_Some in Htr as (p & Hp & Hne).
  pose proof (projectLoop_spec p v (names tabInfo) 0 (st, false)) as [_ Hm].
  destruct (forEachIndex (projectStep p v) 0 (names tabInfo) (st, false)).2 eqn:Hmatched.
  - left. exists p. repeat split; try done.
    destruct Hm as [Hm _]. destruct (Hm eq_refl) as [? | (k & n & Hk & Hv & Hmatch)]; [done|].
    exists (Z.of_nat (0 + k) + 1). apply projectTab_lookup. eauto 10.
  - right. exists p. repeat split; try done.
    intros t Ht. apply projectTab_lookup in Ht as (k & n & Hk & -> & Hv & Hmatch).
    destruct Hm as [_ Hm]. enough (false = true) by done.
    apply Hm. right. eauto 10.
Qed.

(** What the block never touches, and what it leaves behind. *)
Lemma consumeNotification_frame tabInfo v st :
  let st' := consumeNotification tabInfo v st in
  pollCount st' = pollCount st /\
  prevPromptState st' = prevPromptState st /\
  prevProcessingState st' = prevProcessingState st /\
  lastProcessingPoll st' = lastProcessingPoll st /\
  visibleActions st' = visibleActions st /\
  logStreamProcess st' = logStreamProcess st /\
  notificationPending st' = false /\
  attentionTabs st ⊆ attentionTabs st' /\
  (v ∈ attentionTabs st' -> v ∈ attentionTabs st).
Proof.
  cbv zeta.
  destruct (consumeNotification_cases tabInfo v st)
    as [Hidle | [[Hp Hn] | [(p & Hp & Hpr & Hne & Hex) | (p & Hp & Hpr & Hne & Hno)]]].
  - rewrite consumeNotification_idle by done. by repeat split.
  - rewrite consumeNotification_timing by done.
    destruct (applyTimingHeuristic_spec tabInfo v (set_notificationPending false st))
      as [Heq Hfl].
    rewrite Heq. simpl. repeat split; try done.
    + intros t Ht. apply Hfl. by left.
    + intros Hv. apply Hfl in Hv as [Hv | (_ & Hv & _)]; done.
  - destruct (consumeNotification_matched tabInfo v st p Hp Hpr Hne Hex) as [Heq Hfl].
    rewrite Heq. simpl. repeat split; try done.
    + intros t Ht. apply Hfl. by left.
    + intros Hv. apply Hfl in Hv as [Hv | (Hv & _)]; done.
  - rewrite (consumeNotification_unmatched tabInfo v st p) by done.
    destruct (applyTimingHeuristic_spec tabInfo v (set_notificationPending false st))
      as [Heq Hfl].
    rewrite Heq. simpl. repeat split; try done.
    + intros t Ht. apply Hfl. by left.
    + intros Hv. apply Hfl in Hv as [Hv | (_ & Hv & _)]; done.
Qed.

(** ** One call of [updateAttention] *)

Lemma updateAttention_flagged tabInfo st :
  attentionTabs (updateAttention tabInfo st)
  = attentionTabs
      (forEachIndex
         (attentionStep tabInfo (visibleTabOf tabInfo)
            (pollCount (consumeNotification tabInfo (visibleTabOf tabInfo) st)
             <=? notificationWindowEnd
                   (consumeNotification tabInfo (visibleTabOf tabInfo) st)))
         0 (names tabInfo)
         (consumeNotification tabInfo (visibleTabOf tabInfo) st)).
Proof.
  unfold updateAttention, startLogStream. cbv zeta.
  repeat case_match; reflexivity.
Qed.

Lemma updateAttention_signal tabInfo st :
  let st1 := consumeNotification tabInfo (visibleTabOf tabInfo) st in
  pollCount (updateAttention tabInfo st) = pollCount st + 1 /\
  notificationWindowEnd (updateAttention tabInfo st) = notificationWindowEnd st1 /\
  notificationPending (updateAttention tabInfo st) = false /\
  notificationProject (updateAttention tabInfo st) = notificationProject st1.
Proof.
  cbv zeta. unfold updateAttention. cbv zeta.
  set (v := visibleTabOf tabInfo).
  set (st1 := consumeNotification tabInfo v st).
  set (w := pollCount st1 <=? notificationWindowEnd st1).
  destruct (attentionLoop_sameSignal tabInfo v w (names tabInfo) 0 st1)
    as (Hpc & Hwe & Hpe & Hpr & _).
  destruct (consumeNotification_frame tabInfo v st) as (Hpc' & _ & _ & _ & _ & _ & Hpe' & _).
  fold st1 in Hpc', Hpe'.
  unfold startLogStream. repeat case_match; simpl; repeat split; congruence.
Qed.

Lemma updateAttention_prevPrompt tabInfo st t :
  prevPromptState (updateAttention tabInfo st) !! t =
    if decide (isTab tabInfo t) then Some (promptAt tabInfo t)
    else prevPromptState st !! t.
Proof.
  destruct (consumeNotification_frame tabInfo (visibleTabOf tabInfo) st)
    as (_ & Hprev & _).
  rewrite <- Hprev.
  rewrite <- (attentionLoop_prevPrompt tabInfo (visibleTabOf tabInfo)
    (pollCount (consumeNotification tabInfo (visibleTabOf tabInfo) st)
     <=? notificationWindowEnd (consumeNotification tabInfo (visibleTabOf tabInfo) st))
    (names tabInfo) 0 _ t).
  unfold updateAttention, startLogStream. cbv zeta.
  repeat case_match; reflexivity.
Qed.

Lemma updateAttention_prevProcessing tabInfo st t :
  prevProcessingState (updateAttention tabInfo st) !! t =
    if decide (isTab tabInfo t) then Some (processingAt tabInfo t)
    else prevProcessingState st !! t.
Proof.
  destruct (consumeNotification_frame tabInfo (visibleTabOf tabInfo) st)
    as (_ & _ & Hprev & _).
  rewrite <- Hprev.
  rewrite <- (attentionLoop_prevProcessing tabInfo (visibleTabOf tabInfo)
    (pollCount (consumeNotification tabInfo (visibleTabOf tabInfo) st)
     <=? notificationWindowEnd (consumeNotification tabInfo (visibleTabOf tabInfo) st))
    (names tabInfo) 0 _ t).
  unfold updateAttention, startLogStream. cbv zeta.
  repeat case_match; reflexivity.
Qed.

(** The flagged set when [updateAttention] returns. *)
Lemma updateAttention_mem tabInfo st t :
  let v := visibleTabOf tabInfo in
  let st1 := consumeNotification tabInfo v st in
  t ∈ attentionTabs (updateAttention tabInfo st) <->
    (isTab tabInfo t /\ t <> v /\ 0 < pollCount st /\
     pollCount st <= notificationWindowEnd st1 /\
     (risingPrompt tabInfo st t || fallingProcessing tabInfo st t) = true)
    \/ (t ∈ attentionTabs st1 /\ ~ (t = v /\ isTab tabInfo t)).
Proof.
  cbv zeta. rewrite updateAttention_flagged, attentionLoop_flagged.
  destruct (consumeNotification_frame tabInfo (visibleTabOf tabInfo) st)
    as (Hpc & Hpp & Hpq & _).
  unfold risingPrompt, fallingProcessing, wasAtPrompt, wasProcessing, isTab.
  rewrite Hpc, Hpp, Hpq, Z.leb_le. simpl. reflexivity.
Qed.

Lemma updateAttention_visibleActions tabInfo st :
  visibleActions (updateAttention tabInfo st) = visibleActions st.
Proof.
  unfold updateAttention, startLogStream. cbv zeta.
  set (v := visibleTabOf tabInfo).
  set (st1 := consumeNotification tabInfo v st).
  destruct (attentionLoop_sameSignal tabInfo v
              (pollCount st1 <=? notificationWindowEnd st1) (names tabInfo) 0 st1)
    as (_ & _ & _ & _ & Hva & _).
  destruct (consumeNotification_frame tabInfo v st) as (_ & _ & _ & _ & Hva' & _).
  fold st1 in Hva'. repeat case_match; simpl; congruence.
Qed.

(** ** Claims about the attention engine *)


Lemma runPolls_signal readings : forall st,
  notificationPending st = false ->
  notificationPending (runPolls readings st) = false /\
  notificationWindowEnd (runPolls readings st) = notificationWindowEnd st.
Proof.
  induction readings as [|r readings IH]; intros st Hp; simpl; [done|].
  destruct (updateAttention_signal r st) as (_ & Hwe & Hpe & _).
  rewrite consumeNotification_idle in Hwe by done.
  destruct (IH (updateAttention r st) Hpe) as [IH1 IH2].
  split; [done | congruence].
Qed.

(** C2 (amended).  Seen from the state the tab loop starts in, the edge
    rules add a tab exactly when it is a tab of the reading with a rising
    prompt edge or a falling processing edge, it is not visible, this is
    not the first poll ([pollCount > 0]) and [pollCount <=
    notificationWindowEnd].  And once the poll count has passed the end of
    a window opened at poll [N] (end [N + 4]), polls without a new signal
    add no tab at all. *)
Theorem edge_flagging_window :
  (forall tabInfo st t,
     let v := visibleTabOf tabInfo in
     let st1 := consumeNotification tabInfo v st in
     t ∉ attentionTabs st1 ->
     (t ∈ attentionTabs (updateAttention tabInfo st) <->
        isTab tabInfo t /\
        (risingPrompt tabInfo st t || fallingProcessing tabInfo st t) = true /\
        t <> v /\ 0 < pollCount st /\
        pollCount st <= notificationWindowEnd st1)) /\
  (forall st N readings tabInfo,
     notificationWindowEnd st = N + 4 ->
     notificationPending st = false ->
     N + 4 < pollCount (runPolls readings st) ->
     attentionTabs (updateAttention tabInfo (runPolls readings st))
       ⊆ attentionTabs (runPolls readings st)).
Proof.
  split.
  - intros tabInfo st t v st1 Hnot. rewrite updateAttention_mem. fold v st1.
    split; [intros [H | [H _]]; [tauto | done] | intros H; left; tauto].
  - intros st N readings tabInfo Hwe Hp Hlt t Hin.
    destruct (runPolls_signal readings st Hp) as [Hp' Hwe'].
    apply updateAttention_mem in Hin.
    rewrite consumeNotification_idle in Hin by done.
    destruct Hin as [(_ & _ & _ & Hle & _) | [Hin _]]; [lia | done].
Qed.

(** C3.  A pending signal without a hint, or with a hint that selects no
    tab: the window end becomes [pollCount + 4], and the tabs this adds to
    the flagged set are exactly the tabs that are not visible, neither
    processing nor at a prompt, and last seen processing at most 3 polls
    ago; they are flagged when [updateAttention] returns. *)
Theorem timing_heuristic_on_unhinted_signal tabInfo st :
  let v := visibleTabOf tabInfo in
  let st1 := consumeNotification tabInfo v st in
  notificationPending st = true ->
  (truthyString (notificationProject st) = false \/
   exists p, notificationProject st = Some p /\
             forall t, ~ projectTab tabInfo v p t) ->
  notificationWindowEnd st1 = pollCount st + 4 /\
  notificationWindowEnd (updateAttention tabInfo st) = pollCount st + 4 /\
  (forall t, t ∈ attentionTabs st1 <->
             t ∈ attentionTabs st \/ recentlyFinished tabInfo v st t) /\
  (forall t, recentlyFinished tabInfo v st t ->
             t ∈ attentionTabs (updateAttention tabInfo st)).
Proof.
  intros v st1 Hpend Hhint.
  assert (exists clear,
             st1 = clear (applyTimingHeuristic tabInfo v
                            (set_notificationPending false st)) /\
             (forall s, attentionTabs (clear s) = attentionTabs s) /\
             (forall s, notificationWindowEnd (clear s) = notificationWindowEnd s))
    as (clear & Heq & Hc1 & Hc2).
  { destruct (truthyString (notificationProject st)) eqn:Htr.
    - destruct Hhint as [? | (p & Hp & Hno)]; [done|].
      apply truthyString_Some in Htr as (q & Hq & Hne).
      assert (q = p) as -> by congruence.
      exists (set_notificationProject None). split; [|done].
      by apply (consumeNotification_unmatched tabInfo v st p).
    - exists id. split; [|done]. by apply consumeNotification_timing. }
  destruct (applyTimingHeuristic_spec tabInfo v (set_notificationPending false st))
    as [Hfr Hfl].
  assert (Hwe : notificationWindowEnd st1 = pollCount st + 4).
  { rewrite Heq, Hc2, Hfr. reflexivity. }
  assert (Hmem : forall t, t ∈ attentionTabs st1 <->
                           t ∈ attentionTabs st \/ recentlyFinished tabInfo v st t).
  { intros t. rewrite Heq, Hc1, Hfl. reflexivity. }
  repeat split; try done.
  - destruct (updateAttention_signal tabInfo st) as (_ & -> & _). done.
  - apply Hmem.
  - apply Hmem.
  - intros t Hrf. apply updateAttention_mem. right. fold v st1. split.
    + apply Hmem. by right.
    + intros [Hv _]. by destruct Hrf as (_ & Hne & _).
Qed.

(** C4.  A pending signal with a hint: every tab that is not visible and
    whose display name contains the hint, whatever the case, is flagged
    when [updateAttention] returns; and when there is such a tab, the
    window end is left as it was and the signal adds the selected tabs to
    the flagged set and no other. *)
Theorem project_hint_flags_matching_tabs tabInfo st p :
  let v := visibleTabOf tabInfo in
  notificationPending st = true ->
  notificationProject st = Some p ->
  p <> "" ->
  (forall t, projectTab tabInfo v p t ->
             t ∈ attentionTabs (updateAttention tabInfo st)) /\
  ((exists t, projectTab tabInfo v p t) ->
   notificationWindowEnd (updateAttention tabInfo st) = notificationWindowEnd st /\
   forall t, t ∈ attentionTabs (consumeNotification tabInfo v st) <->
             t ∈ attentionTabs st \/ projectTab tabInfo v p t).
Proof.
  intros v Hpend Hproj Hne.
  assert (Hex : (exists t, projectTab tabInfo v p t) ->
    notificationWindowEnd (consumeNotification tabInfo v st) = notificationWindowEnd st /\
    forall t, t ∈ attentionTabs (consumeNotification tabInfo v st) <->
              t ∈ attentionTabs st \/ projectTab tabInfo v p t).
  { intros Hex.
    destruct (consumeNotification_matched tabInfo v st p Hpend Hproj Hne Hex)
      as [Heq Hfl].
    split; [by rewrite Heq | exact Hfl]. }
  split.
  - intros t Ht. destruct (Hex (ex_intro _ t Ht)) as [_ Hfl].
    apply updateAttention_mem. right. fold v. split.
    + apply Hfl. by right.
    + intros [Hv _]. by destruct Ht as [Hnv _].
  - intros Hsome. destruct (Hex Hsome) as [Hwe Hfl]. split; [|exact Hfl].
    destruct (updateAttention_signal tabInfo st) as (_ & -> & _). exact Hwe.
Qed.

(** C6.  With no signal pending, a second call of [updateAttention] on the
    same reading leaves the flagged set as the first call left it, and each
    of the two calls adds exactly 1 to [pollCount]; this holds with the
    terminal frontmost, and also without. *)
Theorem updateAttention_twice tabInfo st :
  notificationPending st = false ->
  let st1 := updateAttention tabInfo st in
  let st2 := updateAttention tabInfo st1 in
  attentionTabs st2 = attentionTabs st1 /\
  pollCount st1 = pollCount st + 1 /\
  pollCount st2 = pollCount st1 + 1.
Proof.
  intros Hpend st1 st2.
  destruct (updateAttention_signal tabInfo st) as (Hpc1 & _ & Hpend1 & _).
  destruct (updateAttention_signal tabInfo st1) as (Hpc2 & _).
  fold st1 in Hpc1, Hpend1. fold st2 in Hpc2.
  split; [|done].
  apply set_eq. intros t. unfold st2. rewrite updateAttention_mem.
  rewrite (consumeNotification_idle tabInfo _ st1 Hpend1).
  split.
  - intros [(Htab & _ & _ & _ & Hedge) | [Hin _]]; [|done].
    exfalso. unfold risingPrompt, fallingProcessing, wasAtPrompt, wasProcessing in Hedge.
    unfold st1 in Hedge.
    rewrite updateAttention_prevPrompt, updateAttention_prevProcessing in Hedge.
    rewrite !decide_True in Hedge by done. simpl in Hedge.
    destruct (promptAt tabInfo t), (processingAt tabInfo t); done.
  - intros Hin. right. split; [done|]. intros [-> Htab].
    unfold st1 in Hin. apply updateAttention_mem in Hin.
    destruct Hin as [(_ & Hne & _) | [_ Hnot]]; [done | by apply Hnot].
Qed.

(** ** Program classification *)

Lemma prefix_app_l p q : forall s,
  String.prefix (p +:+ q) s = true -> String.prefix p s = true.
Proof.
  induction p as [|a p IH]; intros s H; [by destruct s|].
  destruct s as [|b s]; simpl in *; [done|].
  destruct (ascii_dec a b); [by apply IH | done].
Qed.

Lemma includes_unfold s sub :
  Js.includes s sub
  = String.prefix sub s
    || match s with
       | EmptyString => false
       | String _ s' => Js.includes s' sub
       end.
Proof. by destruct s. Qed.

Lemma includes_app_l s p q :
  Js.includes s (p +:+ q) = true -> Js.includes s p = true.
Proof.
  induction s as [|a s IH]; rewrite (includes_unfold _ (p +:+ q)),
    (includes_unfold _ p), !orb_true_iff.
  - intros [H | H]; [left; by apply (prefix_app_l p q) | done].
  - intros [H | H]; [left; by apply (prefix_app_l p q) | right; by apply IH].
Qed.

Lemma includes_tail s c q :
  Js.includes s (String c q) = true -> Js.includes s q = true.
Proof.
  induction s as [|a s IH]; [done|].
  rewrite (includes_unfold _ (String c q)), (includes_unfold _ q), !orb_true_iff.
  intros [H | H]; right.
  - simpl in H. destruct (ascii_dec c a); [|done].
    rewrite includes_unfold, H. done.
  - by apply IH.
Qed.

Lemma includes_claude_path s :
  Js.includes s ".local/share/claude/" = true -> Js.includes s "claude" = true.
Proof.
  intros H. do 13 apply includes_tail in H.
  by apply (includes_app_l s "claude" "/").
Qed.

Lemma matchTtyStep_other fg i tty result key :
  key <> Z.of_nat i + 1 ->
  matchTtyStep fg i tty result !! key = result !! key.
Proof.
  intros Hne. unfold matchTtyStep.
  repeat case_match; rewrite ?lookup_insert_ne; done.
Qed.

Lemma matchTtyLoop_below fg a : forall i result key,
  key <= Z.of_nat i ->
  forEachIndex (matchTtyStep fg) i a result !! key = result !! key.
Proof.
  induction a as [|x a IH]; intros i result key Hle; simpl; [done|].
  rewrite IH by lia. apply matchTtyStep_other. lia.
Qed.

(** The entry of a tab after the loop is the one its own iteration left. *)
Lemma matchTtyLoop_lookup fg a : forall i result k tty,
  a !! k = Some tty ->
  forEachIndex (matchTtyStep fg) i a result !! (Z.of_nat (i + k) + 1)
  = matchTtyStep fg (i + k) tty
      (forEachIndex (matchTtyStep fg) i (take k a) result)
    !! (Z.of_nat (i + k) + 1).
Proof.
  induction a as [|x a IH]; intros i result k tty Hk; [done|].
  destruct k as [|k]; simpl in *.
  - injection Hk as ->. rewrite Nat.add_0_r. apply matchTtyLoop_below. lia.
  - replace (i + S k)%nat with (S i + k)%nat by lia. by apply IH.
Qed.

(** C7.  Agents come before runtimes on both routes of the classifier.  A
    tab whose foreground command lines contain [claude] is classified
    [claude], one whose command lines contain [codex] (and not [claude])
    is classified [codex], whatever else the command lines contain, an
    interpreter path included; and a title process name that contains
    [codex] or [claude] gets that label before [python] or [node] is
    looked for. *)
Theorem agent_label_before_runtime :
  (forall ttys psOutput i tty cmds title,
     psOutput <> "" ->
     ttys !! i = Some tty ->
     groupForeground psOutput !! Js.replaceFirst "/dev/" "" tty = Some cmds ->
     let combined := Js.toLowerCase (Js.join " " cmds) in
     let program :=
       tabProgram (matchTtyPrograms ttys psOutput) (Z.of_nat i + 1) title in
     (Js.includes combined "claude" = true -> program = "claude") /\
     (Js.includes combined "claude" = false ->
      Js.includes combined "codex" = true -> program = "codex")) /\
  (forall process,
     let p := dropLeadingDash (Js.toLowerCase process) in
     (Js.includes p "codex" = true -> detectProgramFromName process = "codex") /\
     (Js.includes p "codex" = false -> Js.includes p "claude" = true ->
      detectProgramFromName process = "claude")).
Proof.
  split.
  - intros ttys psOutput i tty cmds title Hps Htty Hfg combined program.
    assert (Hrun : matchTtyPrograms ttys psOutput !! (Z.of_nat i + 1)
                   = matchTtyStep (groupForeground psOutput) i tty
                       (forEachIndex (matchTtyStep (groupForeground psOutput))
                          0 (take i ttys) ∅)
                     !! (Z.of_nat i + 1)).
    { unfold matchTtyPrograms.
      destruct ttys as [|t0 ttys]; [done|].
      destruct (String.eqb_spec psOutput ""); [done|]. simpl orb. cbv iota.
      apply (matchTtyLoop_lookup _ (t0 :: ttys) 0 ∅ i tty Htty). }
    unfold program, tabProgram. rewrite Hrun. unfold matchTtyStep.
    rewrite Hfg. fold combined. split.
    + intros ->. simpl. by rewrite lookup_insert_eq.
    + intros Hclaude Hcodex. rewrite Hclaude, Hcodex.
      destruct (Js.includes combined ".local/share/claude/") eqn:Hpath.
      { apply includes_claude_path in Hpath. congruence. }
      simpl. by rewrite lookup_insert_eq.
  - intros process p. unfold detectProgramFromName. fold p. split.
    + by intros ->.
    + by intros -> ->.
Qed.

(** ** The correlation file *)


(** ** The second notification *)

(** C5 (amended).  While a signal is pending, a further notification line
    is ignored: the state stays as it is, so the signal stays pending with
    the hint read for the first notification, and no poll is requested.  A
    whole chunk of log output changes nothing but the line buffer. *)
Theorem pending_signal_is_kept matchers file now st :
  notificationPending st = true ->
  (forall line, onLogLine matchers file now line st = st) /\
  (forall chunk,
     notificationPending (onLogData matchers file now chunk st) = true /\
     notificationProject (onLogData matchers file now chunk st)
       = notificationProject st /\
     pollInProgress (onLogData matchers file now chunk st) = pollInProgress st).
Proof.
  intros Hpend.
  assert (Hline : forall s line, notificationPending s = true ->
                                 onLogLine matchers file now line s = s).
  { intros s line Hs. unfold onLogLine. rewrite Hs. by repeat case_match. }
  split; [intros line; by apply Hline|].
  intros chunk. unfold onLogData.
  set (lines := Js.split newline (logBuffer st +:+ chunk)).
  set (st1 := set_logBuffer (default "" (last lines)) st).
  assert (Hfold : forall ls s, notificationPending s = true ->
            foldl (fun s line => onLogLine matchers file now line s) s ls = s).
  { induction ls as [|l ls IH]; intros s Hs; simpl; [done|].
    rewrite Hline by done. by apply IH. }
  rewrite Hfold by done. done.
Qed.

(** ** Publishing *)



(** ** Key presses *)

(** C10.  A key press on a tracked action removes the index of its tab
    from the flagged set before the switch command is issued: the index is
    not flagged in the state the command is issued in, and when the handler
    returns the flagged set is the former one without that index, whether
    the command succeeded or failed. *)
Theorem key_press_clears_attention id tabIndex st :
  mapGet id (visibleActions st) = Some tabIndex ->
  (exists st1,
     onKeyDown_beforeSwitch id st = Some (tabIndex, st1) /\
     tabIndex ∉ attentionTabs st1) /\
  (forall switchSucceeds,
     attentionTabs (onKeyDown id switchSucceeds st)
     = attentionTabs st ∖ {[tabIndex]}) /\
  (forall switchSucceeds t,
     t <> tabIndex ->
     (t ∈ attentionTabs (onKeyDown id switchSucceeds st) <-> t ∈ attentionTabs st)).
Proof.
  intros Hget.
  assert (Hfl : attentionTabs (pollTabs_begin (deleteAttention tabIndex st))
                = attentionTabs st ∖ {[tabIndex]}).
  { unfold pollTabs_begin, deleteAttention. by case_match. }
  repeat split.
  - eexists. unfold onKeyDown_beforeSwitch. rewrite Hget. split; [done|].
    rewrite Hfl. set_solver.
  - intros ok. unfold onKeyDown, onKeyDown_beforeSwitch, switchToTab.
    by rewrite Hget.
  - unfold onKeyDown, onKeyDown_beforeSwitch, switchToTab.
    rewrite Hget, Hfl. set_solver.
  - unfold onKeyDown, onKeyDown_beforeSwitch, switchToTab.
    rewrite Hget, Hfl. set_solver.
Qed.

(** ** The claims on sample runs *)

Example parseTabName_deploy :
  parseTabName "Deploy (zsh)" = {| displayName := "Deploy"; process := "zsh" |}.
Proof. vm_compute. reflexivity. Qed.

Example parseTabName_plain :
  parseTabName "notes" = {| displayName := "notes"; process := "" |}.
Proof. vm_compute. reflexivity. Qed.

Example parseTabName_last_parenthesis :
  parseTabName "a (b) (c)" = {| displayName := "a (b)"; process := "c" |}.
Proof. vm_compute. reflexivity. Qed.

Example matchesProject_deploy : matchesProject "Deploy (zsh)" "deploy" = true.
Proof. vm_compute. reflexivity. Qed.

Example started_tracks_three_tabs :
  visibleActions Sample.started
  = [("button-1", 1); ("button-2", 2); ("button-3", 3)].
Proof. vm_compute. reflexivity. Qed.

Example matchTtyPrograms_table :
  matchTtyPrograms (ttys Sample.threeTabs) Sample.psTable !! 1 = Some "claude" /\
  matchTtyPrograms (ttys Sample.threeTabs) Sample.psTable !! 2 = Some "codex" /\
  matchTtyPrograms (ttys Sample.threeTabs) Sample.psTable !! 3 = None.
Proof. repeat split; vm_compute; reflexivity. Qed.

(** The scenario of two tabs [build (npm)] and [notes (vim)], the first one
    active and the terminal frontmost, no signal pending: the first button
    is active without attention, the second shows the editor, found from
    the title, without attention; the third button is empty. *)
Example poll_two_tabs :
  (pollTabs_finish
     {| names := ["build (npm)"; "notes (vim)"]; activeIndex := 1;
        prompts := [false; false]; processing := [false; false];
        frontmost := false; ttys := ["/dev/ttys001"; "/dev/ttys002"] |}
     "" true Sample.started).2
  = ([("button-1", Button "build" "node" true false);
      ("button-2", Button "notes" "vim" false false);
      ("button-3", EmptyButton)], true).
Proof. vm_compute. reflexivity. Qed.



(** C2, as stated, fails.  A notification arrives before the first poll.
    In that poll ([pollCount = 0], window end 4) the only tab is not
    visible and is at its prompt while no earlier value is recorded for it
    (a rising edge for the loop), yet the tab is not flagged: the edge
    rules are skipped on the first poll. *)
Lemma first_poll_edge_not_flagged :
  isTab Sample.atPrompt 1 /\
  risingPrompt Sample.atPrompt Sample.signalledFirst 1 = true /\
  1 <> visibleTabOf Sample.atPrompt /\
  pollCount Sample.signalledFirst
    <= notificationWindowEnd
         (consumeNotification Sample.atPrompt (visibleTabOf Sample.atPrompt)
            Sample.signalledFirst) /\
  1 ∉ attentionTabs (updateAttention Sample.atPrompt Sample.signalledFirst).
Proof.
  split; [unfold isTab; simpl; lia|].
  split; [vm_compute; reflexivity|].
  split; [vm_compute; discriminate|].
  split; [vm_compute; discriminate|].
  apply not_flagged_by_evaluation. vm_compute. reflexivity.
Qed.

Lemma edge_flagging_window_witness :
  (2 ∉ attentionTabs
         (consumeNotification Sample.idle (visibleTabOf Sample.idle)
            Sample.signalledLater)) /\
  2 ∈ attentionTabs (updateAttention Sample.idle Sample.signalledLater).
Proof.
  assert (Hnot : 2 ∉ attentionTabs
            (consumeNotification Sample.idle (visibleTabOf Sample.idle)
               Sample.signalledLater))
    by (apply not_flagged_by_evaluation; vm_compute; reflexivity).
  split; [exact Hnot|].
  apply (proj1 edge_flagging_window Sample.idle Sample.signalledLater 2 Hnot).
  split; [unfold isTab; simpl; lia|].
  split; [vm_compute; reflexivity|].
  split; [vm_compute; discriminate|].
  split; [vm_compute; reflexivity | vm_compute; discriminate].
Defined.

Lemma timing_heuristic_on_unhinted_signal_witness :
  notificationPending Sample.signalledLater = true /\
  notificationWindowEnd (updateAttention Sample.quiet Sample.signalledLater) = 5 /\
  2 ∈ attentionTabs (updateAttention Sample.quiet Sample.signalledLater).
Proof.
  assert (Hpend : notificationPending Sample.signalledLater = true)
    by (vm_compute; reflexivity).
  assert (Hhint : truthyString (notificationProject Sample.signalledLater) = false
                  \/ exists p, notificationProject Sample.signalledLater = Some p /\
                       forall t, ~ projectTab Sample.quiet
                                     (visibleTabOf Sample.quiet) p t)
    by (left; vm_compute; reflexivity).
  destruct (timing_heuristic_on_unhinted_signal Sample.quiet Sample.signalledLater
              Hpend Hhint) as (_ & Hend & _ & Hflag).
  split; [exact Hpend|]. split; [exact Hend|].
  apply Hflag. split; [unfold isTab; simpl; lia|].
  split; [vm_compute; discriminate|].
  split; [vm_compute; reflexivity|].
  split; [vm_compute; reflexivity|].
  exists 0. split; [vm_compute; reflexivity | vm_compute; discriminate].
Defined.

Lemma project_hint_flags_matching_tabs_witness :
  notificationProject Sample.signalled = Some "api" /\
  3 ∈ attentionTabs (updateAttention Sample.threeTabs Sample.signalled) /\
  notificationWindowEnd (updateAttention Sample.threeTabs Sample.signalled) = -1.
Proof.
  assert (Hpend : notificationPending Sample.signalled = true)
    by (vm_compute; reflexivity).
  assert (Hproj : notificationProject Sample.signalled = Some "api")
    by (vm_compute; reflexivity).
  assert (Hne : "api" <> "") by discriminate.
  assert (Htab : projectTab Sample.threeTabs (visibleTabOf Sample.threeTabs) "api" 3).
  { split; [vm_compute; discriminate|].
    exists "api (node)". split; vm_compute; reflexivity. }
  destruct (project_hint_flags_matching_tabs Sample.threeTabs Sample.signalled "api"
              Hpend Hproj Hne) as [Hall Hsome].
  split; [exact Hproj|]. split; [exact (Hall 3 Htab)|].
  exact (proj1 (Hsome (ex_intro _ 3 Htab))).
Defined.

(** C5, as stated, fails.  A signal with the hint [api] is pending when a
    second notification line arrives, for which the file gives the hint
    [web]: the hint kept is still [api]. *)
Lemma second_notification_does_not_replace_hint :
  isNotificationLine DEFAULT_NOTIFICATION_MATCHERS Sample.line = true /\
  notificationPending Sample.signalled = true /\
  eventProject (readNotificationEvent Sample.webFile 1700000002500) = Some "web" /\
  notificationProject
    (onLogLine DEFAULT_NOTIFICATION_MATCHERS Sample.webFile 1700000002500
       Sample.line Sample.signalled) = Some "api".
Proof. repeat split; vm_compute; reflexivity. Qed.

Lemma pending_signal_is_kept_witness :
  notificationPending Sample.signalled = true /\
  onLogLine DEFAULT_NOTIFICATION_MATCHERS Sample.webFile 1700000002500
    Sample.line Sample.signalled = Sample.signalled.
Proof.
  assert (Hpend : notificationPending Sample.signalled = true)
    by (vm_compute; reflexivity).
  split; [exact Hpend|].
  exact (proj1 (pending_signal_is_kept DEFAULT_NOTIFICATION_MATCHERS
                  Sample.webFile 1700000002500 Sample.signalled Hpend)
               Sample.line).
Defined.

Lemma updateAttention_twice_witness :
  notificationPending Sample.started = false /\
  attentionTabs (updateAttention Sample.threeTabs
                   (updateAttention Sample.threeTabs Sample.started))
  = attentionTabs (updateAttention Sample.threeTabs Sample.started) /\
  pollCount (updateAttention Sample.threeTabs
               (updateAttention Sample.threeTabs Sample.started)) = 2.
Proof.
  assert (Hpend : notificationPending Sample.started = false)
    by (vm_compute; reflexivity).
  destruct (updateAttention_twice Sample.threeTabs Sample.started Hpend)
    as (Hsame & Hone & Htwo).
  split; [exact Hpend|]. split; [exact Hsame|].
  rewrite Htwo, Hone. vm_compute. reflexivity.
Defined.

Lemma agent_label_before_runtime_witness :
  tabProgram (matchTtyPrograms (ttys Sample.threeTabs) Sample.psTable) 1 "python3"
  = "claude".
Proof.
  assert (Hps : Sample.psTable <> "") by (vm_compute; discriminate).
  assert (Htty : ttys Sample.threeTabs !! 0%nat = Some "/dev/ttys001")
    by reflexivity.
  assert (Hfg : groupForeground Sample.psTable
                  !! Js.replaceFirst "/dev/" "" "/dev/ttys001"
                = Some ["/usr/bin/python3 /Users/me/.local/share/claude/cli.py"])
    by (vm_compute; reflexivity).
  apply (proj1 (proj1 agent_label_before_runtime (ttys Sample.threeTabs)
                  Sample.psTable 0%nat "/dev/ttys001" _ "python3" Hps Htty Hfg)).
  vm_compute. reflexivity.
Defined.



Lemma key_press_clears_attention_witness :
  3 ∈ attentionTabs Sample.flagged /\
  attentionTabs (onKeyDown "button-3" false Sample.flagged) = ∅.
Proof.
  split; [apply flagged_by_evaluation; vm_compute; reflexivity|].
  assert (Hget : mapGet "button-3" (visibleActions Sample.flagged) = Some 3)
    by (vm_compute; reflexivity).
  destruct (key_press_clears_attention "button-3" 3 Sample.flagged Hget)
    as (_ & Hclear & _).
  rewrite Hclear. vm_compute. reflexivity.
Defined.

(** * Further properties of the attention engine *)

Lemma attentionStep_lastProcessing tabInfo v w i x st :
  lastProcessingPoll (attentionStep tabInfo v w i x st)
  = if processingAt tabInfo (Z.of_nat i + 1)
    then <[Z.of_nat i + 1 := pollCount st]> (lastProcessingPoll st)
    else lastProcessingPoll st.
Proof.
  unfold attentionStep, processingAt, addAttention, deleteAttention.
  cbv zeta. rewrite tabIdx_to_nat. repeat case_match; reflexivity.
Qed.

Lemma attentionLoop_lastProcessing tabInfo v w a : forall i st t,
  lastProcessingPoll (forEachIndex (attentionStep tabInfo v w) i a st) !! t =
    if decide (Z.of_nat i + 1 <= t <= Z.of_nat i + Z.of_nat (length a))
    then (if processingAt tabInfo t then Some (pollCount st)
          else lastProcessingPoll st !! t)
    else lastProcessingPoll st !! t.
Proof.
  induction a as [|x a IH]; intros i st t; simpl.
  - case_decide; [lia | done].
  - rewrite IH, attentionStep_lastProcessing.
    destruct (attentionStep_sameSignal tabInfo v w i x st) as (<- & _).
    destruct (decide (t = Z.of_nat i + 1)) as [->|Hne].
    + destruct (processingAt tabInfo (Z.of_nat i + 1));
        rewrite ?lookup_insert_eq; repeat case_decide; try done; lia.
    + destruct (processingAt tabInfo (Z.of_nat i + 1));
        rewrite ?lookup_insert_ne by done; repeat case_decide; try done; lia.
Qed.

Lemma projectTab_isTab tabInfo v p t : projectTab tabInfo v p t -> isTab tabInfo t.
Proof.
  intros (_ & n & Hn & _). unfold Js.index in Hn. unfold isTab.
  destruct (Z.ltb_spec (t - 1) 0); [done|].
  apply lookup_lt_Some in Hn. lia.
Qed.

(** What the notification block adds is a tab of the reading. *)
Lemma consumeNotification_added tabInfo v st t :
  t ∈ attentionTabs (consumeNotification tabInfo v st) ->
  t ∈ attentionTabs st \/ (isTab tabInfo t /\ t <> v).
Proof.
  destruct (consumeNotification_cases tabInfo v st)
    as [Hidle | [[Hp Hn] | [(p & Hp & Hpr & Hne & Hex) | (p & Hp & Hpr & Hne & Hno)]]].
  - rewrite consumeNotification_idle by done. by left.
  - rewrite consumeNotification_timing by done.
    destruct (applyTimingHeuristic_spec tabInfo v (set_notificationPending false st))
      as [_ Hfl].
    intros [H | (Htab & Hv & _)]%Hfl; [by left | by right].
  - destruct (consumeNotification_matched tabInfo v st p Hp Hpr Hne Hex) as [_ Hfl].
    intros [H | Hpt]%Hfl; [by left | right].
    split; [by eapply projectTab_isTab | by destruct Hpt].
  - rewrite (consumeNotification_unmatched tabInfo v st p) by done.
    destruct (applyTimingHeuristic_spec tabInfo v (set_notificationPending false st))
      as [Heq Hfl].
    intros Hin. assert (t ∈ attentionTabs
      (applyTimingHeuristic tabInfo v (set_notificationPending false st))) as Hin'
      by exact Hin.
    apply Hfl in Hin' as [H | (Htab & Hv & _)]; [by left | by right].
Qed.

(** X1.  Silence alone never flags a tab: while no notification is pending
    and the poll count is past the end of the last window (as it is when
    the engine starts), a run of polls, whatever the readings, adds no tab
    to the flagged set. *)
Theorem polls_without_notification_flag_nothing readings : forall st,
  notificationPending st = false ->
  notificationWindowEnd st < pollCount st ->
  attentionTabs (runPolls readings st) ⊆ attentionTabs st.
Proof.
  induction readings as [|r readings IH]; intros st Hpend Hend; simpl; [done|].
  destruct (updateAttention_signal r st) as (Hpc & Hwe & Hpend' & _).
  rewrite consumeNotification_idle in Hwe by done.
  transitivity (attentionTabs (updateAttention r st)).
  - apply IH; [done | lia].
  - intros t Hin. apply updateAttention_mem in Hin.
    rewrite consumeNotification_idle in Hin by done.
    destruct Hin as [(_ & _ & _ & Hle & _) | [Hin _]]; [lia | done].
Qed.

(** X2.  A poll removes at most the visible tab from the flagged set; with
    the terminal in the background it removes nothing. *)
Theorem updateAttention_clears_only_visible tabInfo st :
  (forall t, t ∈ attentionTabs st -> t <> visibleTabOf tabInfo ->
             t ∈ attentionTabs (updateAttention tabInfo st)) /\
  (frontmost tabInfo = false ->
   attentionTabs st ⊆ attentionTabs (updateAttention tabInfo st)).
Proof.
  assert (Hkeep : forall t, t ∈ attentionTabs st ->
            ~ (t = visibleTabOf tabInfo /\ isTab tabInfo t) ->
            t ∈ attentionTabs (updateAttention tabInfo st)).
  { intros t Hin Hnot. apply updateAttention_mem. right. split; [|done].
    destruct (consumeNotification_frame tabInfo (visibleTabOf tabInfo) st)
      as (_ & _ & _ & _ & _ & _ & _ & Hsub & _).
    by apply Hsub. }
  split.
  - intros t Hin Hne. apply Hkeep; [done|]. by intros [? _].
  - intros Hback t Hin. apply Hkeep; [done|].
    unfold visibleTabOf, isTab. rewrite Hback. lia.
Qed.

(** X3.  A poll flags only tabs of its reading: an index flagged when
    [updateAttention] returns was flagged before or lies between 1 and the
    number of tab names, and it is not the visible tab unless it was
    flagged before. *)
Theorem updateAttention_flags_tabs_only tabInfo st t :
  t ∈ attentionTabs (updateAttention tabInfo st) ->
  t ∈ attentionTabs st \/ (isTab tabInfo t /\ t <> visibleTabOf tabInfo).
Proof.
  intros Hin. apply updateAttention_mem in Hin.
  destruct Hin as [(Htab & Hv & _) | [Hin _]]; [by right|].
  by apply consumeNotification_added.
Qed.

(** X4.  The history a poll records: for every tab of the reading the
    previous prompt and processing values become those of the reading, and
    a tab seen processing is stamped with the poll count of this poll; the
    stamp of a tab that is not processing, and every entry outside the
    reading, is left as it was. *)
Theorem updateAttention_records_history tabInfo st t :
  let st' := updateAttention tabInfo st in
  (isTab tabInfo t ->
   prevPromptState st' !! t = Some (promptAt tabInfo t) /\
   prevProcessingState st' !! t = Some (processingAt tabInfo t) /\
   lastProcessingPoll st' !! t
   = if processingAt tabInfo t then Some (pollCount st)
     else lastProcessingPoll st !! t) /\
  (~ isTab tabInfo t ->
   prevPromptState st' !! t = prevPromptState st !! t /\
   prevProcessingState st' !! t = prevProcessingState st !! t /\
   lastProcessingPoll st' !! t = lastProcessingPoll st !! t).
Proof.
  cbv zeta.
  assert (Hlast : lastProcessingPoll (updateAttention tabInfo st) !! t =
    if decide (isTab tabInfo t)
    then (if processingAt tabInfo t then Some (pollCount st)
          else lastProcessingPoll st !! t)
    else lastProcessingPoll st !! t).
  { destruct (consumeNotification_frame tabInfo (visibleTabOf tabInfo) st)
      as (Hpc & _ & _ & Hlp & _).
    rewrite <- Hpc, <- Hlp.
    rewrite <- (attentionLoop_lastProcessing tabInfo (visibleTabOf tabInfo)
      (pollCount (consumeNotification tabInfo (visibleTabOf tabInfo) st)
       <=? notificationWindowEnd (consumeNotification tabInfo (visibleTabOf tabInfo) st))
      (names tabInfo) 0 _ t).
    unfold updateAttention, startLogStream. cbv zeta.
    repeat case_match; reflexivity. }
  rewrite updateAttention_prevPrompt, updateAttention_prevProcessing, Hlast.
  split; intros Htab; [rewrite !decide_True by done | rewrite !decide_False by done];
    done.
Qed.


(** X6.  A signal is consumed by the first poll that sees it: when
    [updateAttention] returns no signal is pending; a pending signal leaves
    no usable hint behind; and with no signal pending the hint and the end
    of the window are left as they were. *)
Theorem updateAttention_consumes_signal tabInfo st :
  let st' := updateAttention tabInfo st in
  notificationPending st' = false /\
  (notificationPending st = true ->
   truthyString (notificationProject st') = false) /\
  (notificationPending st = false ->
   notificationProject st' = notificationProject st /\
   notificationWindowEnd st' = notificationWindowEnd st).
Proof.
  cbv zeta.
  destruct (updateAttention_signal tabInfo st) as (_ & Hwe & Hpend & Hproj).
  split; [done|]. split.
  - intros Hp. rewrite Hproj.
    destruct (consumeNotification_cases tabInfo (visibleTabOf tabInfo) st)
      as [Hidle | [[_ Hn] | [(p & _ & Hpr & Hne & Hex) | (p & _ & Hpr & Hne & Hno)]]].
    + congruence.
    + rewrite consumeNotification_timing by done.
      destruct (applyTimingHeuristic_spec tabInfo (visibleTabOf tabInfo)
                  (set_notificationPending false st)) as [-> _]. done.
    + destruct (consumeNotification_matched tabInfo _ st p Hp Hpr Hne Hex) as [-> _].
      done.
    + by rewrite (consumeNotification_unmatched tabInfo _ st p).
  - intros Hp. rewrite Hproj, Hwe, consumeNotification_idle by done. done.
Qed.

(** * Further properties of the classifier *)

Lemma matchTtyStep_entry fg i tty result k l :
  matchTtyStep fg i tty result !! k = Some l ->
  result !! k = Some l \/
  (k = Z.of_nat i + 1 /\ is_Some (fg !! Js.replaceFirst "/dev/" "" tty) /\
   l ∈ ["claude"; "codex"; "ssh"; "vim"]).
Proof.
  unfold matchTtyStep.
  destruct (fg !! Js.replaceFirst "/dev/" "" tty) as [cmds|] eqn:Hfg; [|by left].
  destruct (decide (k = Z.of_nat i + 1)) as [->|Hne].
  - repeat case_match; rewrite ?lookup_insert_eq; intros Hq;
      first [by left | right; injection Hq as <-; repeat split; eauto; set_solver].
  - repeat case_match; rewrite ?lookup_insert_ne by done; by left.
Qed.

Lemma matchTtyLoop_entry fg a : forall i result k l,
  forEachIndex (matchTtyStep fg) i a result !! k = Some l ->
  result !! k = Some l \/
  exists j tty, a !! j = Some tty /\ k = Z.of_nat (i + j) + 1 /\
                is_Some (fg !! Js.replaceFirst "/dev/" "" tty) /\
                l ∈ ["claude"; "codex"; "ssh"; "vim"].
Proof.
  induction a as [|x a IH]; intros i result k l Hk; simpl in Hk; [by left|].
  apply IH in Hk as [Hk | (j & tty & Hj & -> & Hfg & Hl)].
  - apply matchTtyStep_entry in Hk as [Hk | (-> & Hfg & Hl)]; [by left | right].
    exists 0%nat, x. rewrite Nat.add_0_r. done.
  - right. exists (S j), tty. repeat split; try done. f_equal. lia.
Qed.

(** X7.  The process-table classifier only ever labels tabs of the reading
    that have a foreground process, and only with one of its four labels:
    an entry of the result belongs to an index between 1 and the number of
    terminals whose terminal has foreground commands, and its label is
    [claude], [codex], [ssh] or [vim]; a tab whose terminal has no
    foreground command in the table gets no entry. *)
Theorem matchTtyPrograms_entries ttys psOutput :
  (forall k l,
     matchTtyPrograms ttys psOutput !! k = Some l ->
     exists i tty,
       k = Z.of_nat i + 1 /\ ttys !! i = Some tty /\
       is_Some (groupForeground psOutput !! Js.replaceFirst "/dev/" "" tty) /\
       l ∈ ["claude"; "codex"; "ssh"; "vim"]) /\
  (forall i tty,
     ttys !! i = Some tty ->
     groupForeground psOutput !! Js.replaceFirst "/dev/" "" tty = None ->
     matchTtyPrograms ttys psOutput !! (Z.of_nat i + 1) = None).
Proof.
  split.
  - intros k l. unfold matchTtyPrograms. case_match; [done|].
    intros [Hq | (j & tty & Hj & -> & Hfg & Hl)]%matchTtyLoop_entry; [done|].
    exists j, tty. done.
  - intros i tty Htty Hfg. unfold matchTtyPrograms. case_match; [done|].
    rewrite (matchTtyLoop_lookup _ ttys 0 ∅ i tty Htty). simpl.
    unfold matchTtyStep. rewrite Hfg.
    destruct (forEachIndex (matchTtyStep (groupForeground psOutput)) 0
                (take i ttys) ∅ !! (Z.of_nat i + 1)) as [l|] eqn:Hl; [|done].
    apply matchTtyLoop_entry in Hl as [Hl | (j & t & Hj & Hk & _)]; [done|].
    apply lookup_lt_Some in Hj. rewrite length_take in Hj. lia.
Qed.

Lemma toLowerChar_idemp c : Js.toLowerChar (Js.toLowerChar c) = Js.toLowerChar c.
Proof. by destruct c as [[] [] [] [] [] [] [] []]. Qed.

Lemma toLowerCase_idemp s : Js.toLowerCase (Js.toLowerCase s) = Js.toLowerCase s.
Proof. induction s as [|c s IH]; simpl; [done|]. by rewrite toLowerChar_idemp, IH. Qed.

Lemma includes_after_dash r c n :
  c <> "-"%char ->
  Js.includes (String "-" r) (String c n) = Js.includes r (String c n).
Proof.
  intros Hc. rewrite (includes_unfold (String "-" r)). simpl.
  by destruct (ascii_dec c "-").
Qed.

(** X8.  The title classifier looks at the process name without its case
    and without one leading dash: a name in another case, and the name of a
    login shell ([-zsh]), get the label of the plain name; and the label is
    always one of the eight the module knows, [other] when nothing is
    recognised. *)
Theorem detectProgramFromName_normalises process :
  detectProgramFromName (Js.toLowerCase process) = detectProgramFromName process /\
  detectProgramFromName (String "-" process) = detectProgramFromName process /\
  detectProgramFromName process
    ∈ ["codex"; "claude"; "python"; "node"; "ssh"; "vim"; "shell"; "other"].
Proof.
  split; [|split].
  - unfold detectProgramFromName. by rewrite toLowerCase_idemp.
  - unfold detectProgramFromName. simpl Js.toLowerCase.
    change (Js.toLowerChar "-") with "-"%char. simpl dropLeadingDash.
    unfold dropLeadingDash.
    destruct (Js.toLowerCase process) as [|c r] eqn:Hl; [done|].
    destruct (Ascii.eqb_spec c "-") as [->|Hc].
    + by rewrite !includes_after_dash by discriminate.
    + destruct c as [[] [] [] [] [] [] [] []]; try done.
  - unfold detectProgramFromName. repeat case_match; set_solver.
Qed.

(** * The tracked actions *)



Lemma mapSet_keys id v m :
  NoDup (map fst m) -> NoDup (map fst (mapSet id v m)) /\
  forall k, k ∈ map fst (mapSet id v m) <-> k = id \/ k ∈ map fst m.
Proof.
  induction m as [|[k w] m IH]; simpl; intros Hnd.
  - split; [apply NoDup_singleton | intros k; set_solver].
  - apply NoDup_cons in Hnd as [Hk Hnd]. destruct (IH Hnd) as [IH1 IH2].
    destruct (String.eqb_spec k id) as [->|Hne]; simpl.
    + split; [by apply NoDup_cons | intros k; set_solver].
    + split.
      * apply NoDup_cons. split; [|done]. rewrite IH2. intros [? | ?]; done.
      * intros k'. rewrite !elem_of_cons, IH2. tauto.
Qed.

Lemma mapSet_values id v m (P : Z -> Prop) :
  P v -> Forall (fun e => P e.2) m -> Forall (fun e => P e.2) (mapSet id v m).
Proof.
  intros Hv. induction m as [|[k w] m IH]; simpl; intros Hall.
  - by repeat constructor.
  - apply Forall_cons in Hall as [Hw Hall].
    destruct (String.eqb k id); constructor; auto.
Qed.

Lemma mapGet_mapDelete id m :
  NoDup (map fst m) -> mapGet id (mapDelete id m) = None.
Proof.
  induction m as [|[k w] m IH]; simpl; intros Hnd; [done|].
  apply NoDup_cons in Hnd as [Hk Hnd].
  destruct (String.eqb_spec k id) as [->|Hne]; simpl.
  - clear IH. induction m as [|[k' w'] m IHm]; simpl; [done|].
    simpl in Hk. apply not_elem_of_cons in Hk as [Hk1 Hk2].
    apply NoDup_cons in Hnd as [_ Hnd].
    destruct (String.eqb_spec k' id); [congruence | by apply IHm].
  - destruct (String.eqb_spec k id); [done | by apply IH].
Qed.

Lemma mapGet_mapDelete_ne id id' m :
  id' <> id -> mapGet id' (mapDelete id m) = mapGet id' m.
Proof.
  intros Hne. induction m as [|[k w] m IH]; simpl; [done|].
  destruct (String.eqb_spec k id) as [->|Hk]; simpl.
  - destruct (String.eqb_spec id id'); [congruence | done].
  - by rewrite IH.
Qed.

Lemma mapDelete_keys id m :
  NoDup (map fst m) -> NoDup (map fst (mapDelete id m)).
Proof.
  induction m as [|[k w] m IH]; simpl; intros Hnd; [done|].
  apply NoDup_cons in Hnd as [Hk Hnd].
  destruct (String.eqb k id); [done|]. simpl. apply NoDup_cons. split; [|auto].
  intros Hin. apply Hk. clear -Hin.
  induction m as [|[k' w'] m IHm]; simpl in *; [done|].
  destruct (String.eqb k' id); simpl in Hin; set_solver.
Qed.

Lemma autoTabIndex_range used : 1 <= autoTabIndex used <= 6.
Proof.
  unfold autoTabIndex.
  destruct (head (filter (fun i => i ∉ used) [1; 2; 3; 4; 5; 6])) as [i|] eqn:Hh;
    simpl; [|lia].
  apply head_Some_elem_of, list_elem_of_filter in Hh as [_ Hin].
  set_solver by lia.
Qed.


Lemma startPolling_visibleActions st :
  visibleActions (startPolling st) = visibleActions st.
Proof.
  unfold startPolling, pollTabs_begin, startLogStream.
  repeat case_match; reflexivity.
Qed.


Lemma stopPolling_stops st :
  pollTimer (stopPolling st) = false /\ logStreamProcess (stopPolling st) = false /\
  visibleActions (stopPolling st) = visibleActions st /\
  attentionTabs (stopPolling st) = attentionTabs st.
Proof.
  unfold stopPolling, stopLogStream.
  destruct (pollTimer st) eqn:Ht, (logStreamProcess st) eqn:Hl; simpl;
    rewrite ?Hl, ?Ht; simpl; done.
Qed.

(** X11.  A button that disappears is no longer tracked: a key press on it
    changes nothing, the other buttons keep their index, and when it was
    the last one the poll timer and the log stream are stopped. *)
Theorem onWillDisappear_untracks id st :
  NoDup (map fst (visibleActions st)) ->
  let st' := onWillDisappear id st in
  mapGet id (visibleActions st') = None /\
  (forall ok, onKeyDown id ok st' = st') /\
  (forall id', id' <> id ->
     mapGet id' (visibleActions st') = mapGet id' (visibleActions st)) /\
  NoDup (map fst (visibleActions st')) /\
  (visibleActions st' = [] ->
   pollTimer st' = false /\ logStreamProcess st' = false).
Proof.
  intros Hnd. cbv zeta.
  assert (Hva : visibleActions (onWillDisappear id st)
                = mapDelete id (visibleActions st)).
  { unfold onWillDisappear. simpl. case_match; [|done].
    by destruct (stopPolling_stops
      (set_visibleActions (mapDelete id (visibleActions st)) st)) as (_ & _ & -> & _). }
  assert (Hget : mapGet id (visibleActions (onWillDisappear id st)) = None)
    by (rewrite Hva; by apply mapGet_mapDelete).
  split; [done|]. split; [|split; [|split]].
  - intros ok. unfold onKeyDown, onKeyDown_beforeSwitch. by rewrite Hget.
  - intros id' Hne. rewrite Hva. by apply mapGet_mapDelete_ne.
  - rewrite Hva. by apply mapDelete_keys.
  - intros Hempty. rewrite Hva in Hempty. unfold onWillDisappear. cbv zeta.
    assert (Hlen : (length (visibleActions
                      (set_visibleActions (mapDelete id (visibleActions st)) st))
                    =? 0)%nat = true) by (simpl; by rewrite Hempty).
    rewrite Hlen.
    destruct (stopPolling_stops
      (set_visibleActions (mapDelete id (visibleActions st)) st)) as (H1 & H2 & _).
    by split.
Qed.

(** * The line buffer of the log stream *)

Lemma string_app_cons c (a b : string) : String c a +:+ b = String c (a +:+ b).
Proof. reflexivity. Qed.

Lemma string_app_assoc (a b c : string) : (a +:+ b) +:+ c = a +:+ (b +:+ c).
Proof.
  induction a as [|x a IH]; [done|]. rewrite !string_app_cons. by f_equal.
Qed.

Lemma string_app_length (a b : string) :
  String.length (a +:+ b) = (String.length a + String.length b)%nat.
Proof.
  induction a as [|x a IH]; [done|]. rewrite string_app_cons. simpl. by f_equal.
Qed.

Lemma split_nonempty sep s : Js.split sep s <> [].
Proof. destruct s as [|c s]; simpl; [done|]. repeat case_match; done. Qed.


Lemma onLogLine_logBuffer matchers file now line b st :
  onLogLine matchers file now line (set_logBuffer b st)
  = set_logBuffer b (onLogLine matchers file now line st).
Proof.
  unfold onLogLine, pollTabs_begin. simpl. repeat case_match; reflexivity.
Qed.

Lemma onLogLines_logBuffer matchers file now lines : forall b st,
  foldl (fun s line => onLogLine matchers file now line s) (set_logBuffer b st) lines
  = set_logBuffer b
      (foldl (fun s line => onLogLine matchers file now line s) st lines).
Proof.
  induction lines as [|l lines IH]; intros b st; simpl; [done|].
  by rewrite onLogLine_logBuffer, IH.
Qed.


Lemma includes_char_cons c s x :
  Js.includes (String c s) (String x "") = false ->
  c <> x /\ Js.includes s (String x "") = false.
Proof.
  rewrite includes_unfold. intros [H1 H2]%orb_false_iff. split; [|done].
  intros ->. simpl in H1. destruct (ascii_dec x x); [|done]. by destruct s.
Qed.

Lemma split_without_separator sep s :
  Js.includes s (String sep "") = false -> Js.split sep s = [s].
Proof.
  induction s as [|c s IH]; [done|].
  intros [Hc Hs]%includes_char_cons. simpl.
  destruct (Ascii.eqb_spec c sep); [done|]. by rewrite IH.
Qed.

Lemma includes_char_app a b x :
  Js.includes a (String x "") = false ->
  Js.includes b (String x "") = false ->
  Js.includes (a +:+ b) (String x "") = false.
Proof.
  intros Ha Hb. induction a as [|c a IH]; [done|].
  apply includes_char_cons in Ha as [Hc Ha].
  rewrite string_app_cons, includes_unfold. apply orb_false_iff. split.
  - simpl. by destruct (ascii_dec x c).
  - by apply IH.
Qed.

Lemma split_pieces sep s :
  Forall (fun w => Js.includes w (String sep "") = false) (Js.split sep s).
Proof.
  induction s as [|c s IH]; [by repeat constructor|]. simpl.
  destruct (Ascii.eqb_spec c sep) as [->|Hne]; [by constructor|].
  pose proof (split_nonempty sep s) as Hsplit.
  destruct (Js.split sep s) as [|w ws]; [done|].
  apply Forall_cons in IH as [Hw Hws]. constructor; [|done].
  rewrite includes_unfold, Hw. simpl.
  destruct (ascii_dec sep c); [congruence | done].
Qed.

(** X13.  The line buffer holds the unfinished last line only: after a
    chunk it contains no line feed; and a chunk without a line feed that
    meets such a buffer raises no signal and starts no poll, it is only
    added to the buffer. *)
Theorem onLogData_partial_line matchers file now chunk st :
  Js.includes (logBuffer (onLogData matchers file now chunk st))
              (String newline "") = false /\
  (Js.includes chunk (String newline "") = false ->
   Js.includes (logBuffer st) (String newline "") = false ->
   onLogData matchers file now chunk st
   = set_logBuffer (logBuffer st +:+ chunk) st).
Proof.
  split.
  - unfold onLogData. rewrite onLogLines_logBuffer. simpl.
    pose proof (split_pieces newline (logBuffer st +:+ chunk)) as Hall.
    destruct (last (Js.split newline (logBuffer st +:+ chunk))) as [l|] eqn:Hl;
      [|done].
    apply last_Some_elem_of in Hl. rewrite Forall_forall in Hall. by apply Hall.
  - intros Hc Hb. unfold onLogData.
    by rewrite split_without_separator by by apply includes_char_app.
Qed.

(** * Tab names *)

Lemma string_app_nil_r (a : string) : a +:+ "" = a.
Proof. induction a as [|x a IH]; [done|]. rewrite string_app_cons. by f_equal. Qed.

Lemma string_app_snoc (t : string) a (s : string) :
  (t +:+ String a "") +:+ s = t +:+ String a s.
Proof. by rewrite string_app_assoc. Qed.

Lemma everyChar_app c a b :
  everyChar c (a +:+ b) = everyChar c a && everyChar c b.
Proof.
  induction a as [|x a IH]; [done|].
  rewrite string_app_cons. simpl. by rewrite IH, andb_assoc.
Qed.

Section Repetition.
Context {X : Type} (c : ascii -> bool) (min : nat)
        (k : string -> string -> option X).

(** A repetition that succeeds stopped after some characters of its class,
    at least [min] of them, and the rest of the expression matched there. *)
Lemma repeatGreedy_Some s : forall taken r,
  Rx.repeatGreedy c min k taken s = Some r ->
  exists g rest, s = g +:+ rest /\ everyChar c g = true /\
                 (min <= String.length (taken +:+ g))%nat /\
                 k (taken +:+ g) rest = Some r.
Proof.
  induction s as [|a s IH]; intros taken r; simpl.
  - destruct (min <=? String.length taken)%nat eqn:Hmin; [|done].
    intros Hk. exists "", "". rewrite !string_app_nil_r.
    apply Nat.leb_le in Hmin. done.
  - assert (Hstop : (if (min <=? String.length taken)%nat
                     then k taken (String a s) else None) = Some r ->
              exists g rest, String a s = g +:+ rest /\ everyChar c g = true /\
                 (min <= String.length (taken +:+ g))%nat /\
                 k (taken +:+ g) rest = Some r).
    { destruct (min <=? String.length taken)%nat eqn:Hmin; [|done].
      intros Hk. exists "", (String a s). rewrite !string_app_nil_r.
      apply Nat.leb_le in Hmin. done. }
    destruct (c a) eqn:Hc; [|exact Hstop].
    destruct (Rx.repeatGreedy c min k (taken +:+ String a "") s) as [r'|] eqn:Hrec;
      [|exact Hstop].
    intros [= <-]. apply IH in Hrec as (g & rest & -> & Hg & Hlen & Hk).
    exists (String a g), rest. rewrite string_app_snoc in Hlen, Hk.
    simpl. rewrite Hc. done.
Qed.

Lemma repeatLazy_Some s : forall taken r,
  Rx.repeatLazy c min k taken s = Some r ->
  exists g rest, s = g +:+ rest /\ everyChar c g = true /\
                 (min <= String.length (taken +:+ g))%nat /\
                 k (taken +:+ g) rest = Some r.
Proof.
  induction s as [|a s IH]; intros taken r; simpl.
  - destruct (min <=? String.length taken)%nat eqn:Hmin; [|done].
    destruct (k taken "") eqn:Hk; [|done].
    intros [= <-]. exists "", "". rewrite !string_app_nil_r.
    apply Nat.leb_le in Hmin. done.
  - destruct (if (min <=? String.length taken)%nat
              then k taken (String a s) else None) as [r'|] eqn:Hstop.
    + intros [= <-].
      destruct (min <=? String.length taken)%nat eqn:Hmin; [|done].
      exists "", (String a s). rewrite !string_app_nil_r.
      apply Nat.leb_le in Hmin. done.
    + destruct (c a) eqn:Hc; [|done].
      intros (g & rest & -> & Hg & Hlen & Hk)%IH.
      exists (String a g), rest. rewrite string_app_snoc in Hlen, Hk.
      simpl. rewrite Hc. done.
Qed.

(** A greedy repetition takes all the characters of its class when the
    rest of the expression matches after them. *)
Lemma repeatGreedy_all g : forall taken rest r,
  everyChar c g = true ->
  match rest with String b _ => c b = false | EmptyString => True end ->
  (min <= String.length (taken +:+ g))%nat ->
  k (taken +:+ g) rest = Some r ->
  Rx.repeatGreedy c min k taken (g +:+ rest) = Some r.
Proof.
  induction g as [|a g IH]; intros taken rest r Hg Hrest Hlen Hk.
  - rewrite !string_app_nil_r in Hlen, Hk. apply Nat.leb_le in Hlen.
    change ("" +:+ rest) with rest.
    destruct rest as [|b rest]; simpl; rewrite ?Hrest, Hlen; done.
  - rewrite string_app_cons. simpl in Hg |- *.
    apply andb_true_iff in Hg as [Ha Hg]. rewrite Ha.
    rewrite (IH (taken +:+ String a "") rest r); try done;
      by rewrite string_app_snoc.
Qed.

(** A lazy repetition stops at the first length at which the rest of the
    expression matches. *)
Lemma repeatLazy_first g y r : forall taken,
  everyChar c g = true ->
  (forall t1 t2, g = t1 +:+ t2 -> t2 <> "" ->
                 (min <= String.length (taken +:+ t1))%nat ->
                 k (taken +:+ t1) (t2 +:+ y) = None) ->
  (min <= String.length (taken +:+ g))%nat ->
  k (taken +:+ g) y = Some r ->
  Rx.repeatLazy c min k taken (g +:+ y) = Some r.
Proof.
  induction g as [|a g IH]; intros taken Hg Hnone Hlen Hk.
  - rewrite !string_app_nil_r in Hlen, Hk. apply Nat.leb_le in Hlen.
    change ("" +:+ y) with y.
    destruct y; simpl; by rewrite Hlen, Hk.
  - rewrite string_app_cons. simpl in Hg |- *.
    apply andb_true_iff in Hg as [Ha Hg].
    assert ((if (min <=? String.length taken)%nat
             then k taken (String a (g +:+ y)) else None) = None) as ->.
    { destruct (min <=? String.length taken)%nat eqn:Hmin; [|done].
      apply Nat.leb_le in Hmin.
      specialize (Hnone "" (String a g)).
      rewrite !string_app_nil_r in Hnone. by apply Hnone. }
    rewrite Ha. apply IH; try done.
    + intros t1 t2 -> Hne Hl. rewrite string_app_snoc in Hl |- *.
      by apply (Hnone (String a t1) t2).
    + by rewrite string_app_snoc.
    + by rewrite string_app_snoc.
Qed.
End Repetition.

(** What [Rx.exec] returns is a way to cut the text into one piece per
    atom, each piece accepted by its atom. *)
Lemma exec_sound r : forall s gs,
  Rx.exec r s = Some gs ->
  Forall2 atomAccepts r gs /\ s = concatStrings gs.
Proof.
  induction r as [|a r IH]; intros s gs; simpl.
  - destruct s; [|done]. intros [= <-]. by split.
  - assert (Hk : forall g rest,
              cons g <$> Rx.exec r rest = Some gs ->
              exists gs', gs = g :: gs' /\ Forall2 atomAccepts r gs' /\
                          rest = concatStrings gs').
    { intros g rest Hex. destruct (Rx.exec r rest) as [gs'|] eqn:Hr; [|done].
      injection Hex as <-. exists gs'. split; [done|]. by apply IH. }
    unfold atomAccepts at 1.
    destruct (Rx.rep a) as [|min|min] eqn:Hrep.
    + destruct s as [|x s]; [done|]. destruct (Rx.cls a x) eqn:Hx; [|done].
      intros (gs' & -> & Hall & ->)%Hk. split; [|done].
      constructor; [|done]. unfold atomAccepts. rewrite Hrep. simpl.
      by rewrite Hx.
    + intros (g & rest & -> & Hg & Hlen & (gs' & -> & Hall & ->)%Hk)%repeatGreedy_Some.
      split; [|done]. constructor; [|done]. unfold atomAccepts. by rewrite Hrep.
    + intros (g & rest & -> & Hg & Hlen & (gs' & -> & Hall & ->)%Hk)%repeatLazy_Some.
      split; [|done]. constructor; [|done]. unfold atomAccepts. by rewrite Hrep.
Qed.

Lemma trimStart_length s : (String.length (Js.trimStart s) <= String.length s)%nat.
Proof.
  induction s as [|c s IH]; simpl; [done|].
  destruct (Js.isWhiteSpace c); simpl; lia.
Qed.

Lemma trimEnd_length s : (String.length (Js.trimEnd s) <= String.length s)%nat.
Proof.
  induction s as [|c s IH]; simpl; [done|].
  destruct (Js.trimEnd s); [destruct (Js.isWhiteSpace c)|]; simpl in *; lia.
Qed.

(** A text that [trim] leaves alone has no white space at either end. *)
Lemma trim_fixed s : Js.trim s = s -> Js.trimStart s = s /\ Js.trimEnd s = s.
Proof.
  unfold Js.trim. intros Heq.
  assert (Js.trimStart s = s) as Hstart.
  { pose proof (trimEnd_length (Js.trimStart s)) as H1.
    rewrite Heq in H1. clear Heq.
    destruct s as [|c s]; [done|]. simpl in *.
    destruct (Js.isWhiteSpace c); [|done].
    pose proof (trimStart_length s). lia. }
  by rewrite Hstart in Heq.
Qed.

Lemma trimEnd_suffix t1 : forall t2,
  Js.trimEnd (t1 +:+ t2) = t1 +:+ t2 -> t2 <> "" -> Js.trimEnd t2 = t2.
Proof.
  induction t1 as [|c t1 IH]; intros t2 Heq Hne; [done|].
  rewrite string_app_cons in Heq. simpl in Heq.
  destruct (Js.trimEnd (t1 +:+ t2)) as [|x t] eqn:Ht.
  - destruct (Js.isWhiteSpace c); [done|].
    injection Heq as Heq. destruct t1; [|done]. by subst.
  - injection Heq as Heq. rewrite Heq in Ht. by apply IH.
Qed.

Lemma trimEnd_last_char c s :
  Js.trimEnd (String c s) = String c s -> s = "" -> Js.isWhiteSpace c = false.
Proof. intros Heq ->. simpl in Heq. by destruct (Js.isWhiteSpace c). Qed.

(** The tab name expression, atom by atom. *)
Lemma tabNameRegex_name s :
  Rx.exec tabNameRegex s
  = Rx.repeatLazy Rx.dot 1
      (fun taken rest => cons taken <$> Rx.exec (tail tabNameRegex) rest) "" s.
Proof. reflexivity. Qed.

Lemma tabNameRegex_space s :
  Rx.exec (tail tabNameRegex) s
  = Rx.repeatGreedy Rx.space 0
      (fun taken rest => cons taken <$> Rx.exec (tail (tail tabNameRegex)) rest)
      "" s.
Proof. reflexivity. Qed.

Lemma tabNameRegex_open a s :
  Rx.exec (tail (tail tabNameRegex)) (String a s)
  = if Rx.lit "(" a
    then cons (String a "") <$> Rx.exec (tail (tail (tail tabNameRegex))) s
    else None.
Proof. reflexivity. Qed.

Lemma tabNameRegex_process s :
  Rx.exec (tail (tail (tail tabNameRegex))) s
  = Rx.repeatGreedy (Rx.notLit ")") 1
      (fun taken rest =>
         cons taken <$> Rx.exec (tail (tail (tail (tail tabNameRegex)))) rest)
      "" s.
Proof. reflexivity. Qed.

Lemma tabNameRegex_close :
  Rx.exec (tail (tail (tail (tail tabNameRegex)))) ")" = Some [")"; ""].
Proof. reflexivity. Qed.

Lemma repeatGreedy_cons {X} c min (k : string -> string -> option X) taken a s :
  Rx.repeatGreedy c min k taken (String a s)
  = if c a
    then match Rx.repeatGreedy c min k (taken +:+ String a "") s with
         | Some r => Some r
         | None => if (min <=? String.length taken)%nat
                   then k taken (String a s) else None
         end
    else if (min <=? String.length taken)%nat then k taken (String a s) else None.
Proof. reflexivity. Qed.

(** After a proper prefix of the display name the rest of the expression
    does not match: the white space is followed by a character of the name,
    not by the parenthesis. *)
Lemma tabNameSuffix_fails d y : forall taken,
  Js.trimEnd d = d -> d <> "" ->
  everyChar (Rx.notLit "(") d = true ->
  Rx.repeatGreedy Rx.space 0
    (fun taken rest => cons taken <$> Rx.exec (tail (tail tabNameRegex)) rest)
    taken (d +:+ y) = None.
Proof.
  induction d as [|a d IH]; intros taken Htrim Hne Hall; [done|].
  simpl in Hall. apply andb_true_iff in Hall as [Ha Hall].
  assert (Hlit : Rx.lit "(" a = false).
  { unfold Rx.notLit, Rx.lit in *. by destruct (Ascii.eqb "(" a). }
  rewrite string_app_cons, repeatGreedy_cons, tabNameRegex_open, Hlit.
  destruct (Rx.space a) eqn:Hsp; [|done].
  destruct d as [|b d].
  - pose proof (trimEnd_last_char a "" Htrim eq_refl).
    unfold Rx.space in Hsp. congruence.
  - rewrite IH; try done.
    by apply (trimEnd_suffix (String a "") (String b d)).
Qed.

Lemma tabNameSuffix_matches w p :
  everyChar Rx.space w = true -> p <> "" ->
  everyChar (Rx.notLit ")") p = true ->
  Rx.exec (tail tabNameRegex) (w +:+ String "(" (p +:+ ")"))
  = Some [w; "("; p; ")"; ""].
Proof.
  intros Hw Hp Hall. rewrite tabNameRegex_space.
  apply repeatGreedy_all; try done; [simpl; lia|].
  change ("" +:+ w) with w.
  rewrite tabNameRegex_open. change (Rx.lit "(" "(") with true. cbv iota.
  rewrite tabNameRegex_process.
  rewrite (repeatGreedy_all (Rx.notLit ")") 1 _ p "" ")" [p; ")"; ""]); try done.
  change ("" +:+ p) with p. destruct p; [done | simpl; lia].
Qed.

(** X14.  A tab name without a closing parenthesis has no process part: it
    is returned whole as the display name, white space included. *)
Theorem parseTabName_without_parenthesis fullName :
  everyChar (Rx.notLit ")") fullName = true ->
  parseTabName fullName = {| displayName := fullName; process := "" |}.
Proof.
  intros Hall. unfold parseTabName.
  destruct (Rx.exec tabNameRegex fullName) as [gs|] eqn:Hex; [|done].
  exfalso. apply exec_sound in Hex as [Hacc ->].
  unfold tabNameRegex in Hacc.
  repeat (let g := fresh "g" in let H := fresh "H" in
          apply Forall2_cons_inv_l in Hacc as (g & gs' & H & Hacc & ->);
          rename gs' into gs).
  simpl in Hall. rewrite !everyChar_app in Hall.
  apply andb_true_iff in Hall as (_ & (_ & (_ & (_ & (Hclose & _)%andb_true_iff
    )%andb_true_iff)%andb_true_iff)%andb_true_iff).
  destruct H3 as [Hc Hlen]. simpl in Hlen.
  destruct g3 as [|x [|? ?]]; [done | | done].
  cbn [everyChar Rx.cls] in Hc. cbn [everyChar] in Hclose.
  unfold Rx.lit, Rx.notLit in *.
  by destruct (Ascii.eqb ")" x).
Qed.

(** X15.  A title made of a display name, white space, and a process name
    in parentheses is taken apart again: for a display name that is not
    empty, has no white space at its ends, no line break and no opening
    parenthesis, and a process name that is not empty, has no white space
    at its ends and no closing parenthesis, [parseTabName] returns the
    two. *)
Theorem parseTabName_round_trip name w proc :
  name <> "" -> Js.trim name = name ->
  everyChar (fun c => Rx.dot c && Rx.notLit "(" c) name = true ->
  everyChar Rx.space w = true ->
  proc <> "" -> Js.trim proc = proc ->
  everyChar (Rx.notLit ")") proc = true ->
  parseTabName (name +:+ w +:+ String "(" (proc +:+ ")"))
  = {| displayName := name; process := proc |}.
Proof.
  intros Hname Htrim Hall Hw Hproc Htrimp Hallp.
  assert (Hdot : everyChar Rx.dot name = true /\
                 everyChar (Rx.notLit "(") name = true).
  { clear -Hall. induction name as [|c s IH]; [done|]. simpl in *.
    apply andb_true_iff in Hall as [[? ?]%andb_true_iff Hall].
    destruct (IH Hall) as [-> ->]. by split; apply andb_true_iff. }
  destruct Hdot as [Hdot Hparen].
  destruct (trim_fixed name Htrim) as [Hstart Hend].
  assert (Rx.exec tabNameRegex (name +:+ w +:+ String "(" (proc +:+ ")"))
          = Some [name; w; "("; proc; ")"; ""]) as Hex.
  { rewrite tabNameRegex_name.
    apply repeatLazy_first; try done.
    - intros t1 t2 -> Hne _. change ("" +:+ t1) with t1.
      rewrite tabNameRegex_space, tabNameSuffix_fails; try done.
      + by apply (trimEnd_suffix t1).
      + rewrite everyChar_app in Hparen. by apply andb_true_iff in Hparen as [_ ?].
    - change ("" +:+ name) with name. destruct name; [done | simpl; lia].
    - change ("" +:+ name) with name.
      by rewrite tabNameSuffix_matches. }
  unfold parseTabName. rewrite Hex. unfold Js.trim in *.
  by rewrite Hstart, Hend, Htrimp.
Qed.

(** * Lines of the process table *)

Lemma exec_greedy_step c min r g rest gs :
  everyChar c g = true ->
  match rest with String b _ => c b = false | EmptyString => True end ->
  (min <= String.length g)%nat ->
  Rx.exec r rest = Some gs ->
  Rx.exec (Rx.Atom c (Rx.Greedy min) :: r) (g +:+ rest) = Some (g :: gs).
Proof.
  intros Hg Hrest Hlen Hex.
  change (Rx.exec (Rx.Atom c (Rx.Greedy min) :: r) (g +:+ rest))
    with (Rx.repeatGreedy c min
            (fun taken rest => cons taken <$> Rx.exec r rest) "" (g +:+ rest)).
  apply repeatGreedy_all; try done. change ("" +:+ g) with g. by rewrite Hex.
Qed.

Lemma everyChar_nonSpace_head c s :
  everyChar Rx.nonSpace (String c s) = true -> Rx.space c = false.
Proof.
  simpl. unfold Rx.nonSpace, Rx.space.
  intros [Hc _]%andb_true_iff. by destruct (Js.isWhiteSpace c).
Qed.

Lemma everyChar_space_head c s :
  everyChar Rx.space (String c s) = true -> Rx.nonSpace c = false.
Proof.
  simpl. unfold Rx.nonSpace, Rx.space.
  intros [Hc _]%andb_true_iff. by rewrite Hc.
Qed.

(** The columns of a line of the process table: a terminal and a state
    without white space, white space between the columns, and a command
    that starts with a visible character and has no line break. *)
Lemma psLineRegex_columns tty w1 stat w2 c cmd :
  tty <> "" -> everyChar Rx.nonSpace tty = true ->
  w1 <> "" -> everyChar Rx.space w1 = true ->
  stat <> "" -> everyChar Rx.nonSpace stat = true ->
  w2 <> "" -> everyChar Rx.space w2 = true ->
  Rx.space c = false -> everyChar Rx.dot (String c cmd) = true ->
  Rx.exec psLineRegex (tty +:+ w1 +:+ stat +:+ w2 +:+ String c cmd)
  = Some [""; tty; w1; stat; w2; String c cmd].
Proof.
  intros Htty Htty' Hw1 Hw1' Hstat Hstat' Hw2 Hw2' Hc Hcmd.
  destruct tty as [|t0 tty]; [done|]. destruct w1 as [|x1 w1]; [done|].
  destruct stat as [|s0 stat]; [done|]. destruct w2 as [|x2 w2]; [done|].
  unfold psLineRegex.
  change (String t0 tty +:+ ?y) with ("" +:+ (String t0 tty +:+ y)).
  apply exec_greedy_step; [done | | simpl; lia |].
  { rewrite string_app_cons. by eapply everyChar_nonSpace_head. }
  apply exec_greedy_step; [done | | simpl; lia |].
  { rewrite string_app_cons. by eapply everyChar_space_head. }
  apply exec_greedy_step; [done | | simpl; lia |].
  { rewrite string_app_cons. by eapply everyChar_nonSpace_head. }
  apply exec_greedy_step; [done | | simpl; lia |].
  { rewrite string_app_cons. by eapply everyChar_space_head. }
  apply exec_greedy_step; [done | | simpl; lia |].
  { unfold Rx.nonSpace. by rewrite Hc. }
  pose proof (exec_greedy_step Rx.dot 1 [] (String c cmd) "" [] Hcmd I) as Hlast.
  rewrite string_app_nil_r in Hlast. apply Hlast; [simpl; lia | done].
Qed.

(** X16.  Only foreground processes count: a line of the process table
    with its three columns adds its command to the commands of its
    terminal, after those already there, when the state column contains
    [+]; otherwise the line adds nothing. *)
Theorem groupForegroundLine_columns fgByTty tty w1 stat w2 c cmd :
  tty <> "" -> everyChar Rx.nonSpace tty = true ->
  w1 <> "" -> everyChar Rx.space w1 = true ->
  stat <> "" -> everyChar Rx.nonSpace stat = true ->
  w2 <> "" -> everyChar Rx.space w2 = true ->
  Rx.space c = false -> everyChar Rx.dot (String c cmd) = true ->
  groupForegroundLine fgByTty (tty +:+ w1 +:+ stat +:+ w2 +:+ String c cmd)
  = if Js.includes stat "+"
    then <[tty := (default [] (fgByTty !! tty) ++ [String c cmd])%list]> fgByTty
    else fgByTty.
Proof.
  intros. unfold groupForegroundLine. by rewrite psLineRegex_columns.
Qed.

(** * The text of a button *)

Lemma takeChars_length n : forall s, (String.length (takeChars n s) <= n)%nat.
Proof.
  induction n as [|n IH]; intros [|c s]; simpl; try lia.
  specialize (IH s). lia.
Qed.

Lemma sliceTo_length s e : 0 <= e -> strLen (sliceTo s e) <= e.
Proof.
  intros He. unfold sliceTo, strLen.
  destruct (Z.ltb_spec e 0); [lia|].
  pose proof (takeChars_length (Z.to_nat e) s). lia.
Qed.

Lemma clipLine_length maxChars line :
  1 <= maxChars -> strLen (clipLine maxChars line) <= maxChars.
Proof.
  intros Hm. unfold clipLine.
  destruct (Z.ltb_spec maxChars (strLen line)); [|done].
  pose proof (sliceTo_length line (maxChars - 1)) as Hs.
  unfold strLen in *. rewrite string_app_length. simpl. lia.
Qed.

Lemma wrapLoop_widths maxChars maxLines words : forall lines current,
  1 <= maxChars ->
  Forall (fun l => strLen l <= maxChars) lines ->
  Forall (fun l => strLen l <= maxChars)
         (wrapLoop maxChars maxLines words lines current).1.
Proof.
  induction words as [|word words IH]; intros lines current Hm Hall; simpl; [done|].
  repeat case_match; simpl; try by apply IH.
  - apply Forall_app. split; [done|]. repeat constructor. by apply clipLine_length.
  - apply IH; [done|]. apply Forall_app. split; [done|].
    repeat constructor. by apply clipLine_length.
Qed.

Lemma wrapLoop_count maxChars maxLines words : forall lines current,
  lines = [] \/ Z.of_nat (length lines) < maxLines - 1 ->
  let result := (wrapLoop maxChars maxLines words lines current).1 in
  Z.of_nat (length result) <= 1 \/ Z.of_nat (length result) <= maxLines - 1.
Proof.
  induction words as [|word words IH]; intros lines current Hinv; simpl.
  - destruct Hinv as [-> | ?]; [left; simpl; lia | right; lia].
  - destruct (String.eqb current ""); [by apply IH|].
    destruct (strLen (current +:+ " " +:+ word) <=? maxChars); [by apply IH|].
    destruct (Z.leb_spec (maxLines - 1)
                (Z.of_nat (length (lines ++ [clipLine maxChars current]))))
      as [Hstop|Hgo].
    + simpl. rewrite length_app in *. simpl in *.
      destruct Hinv as [-> | ?]; [left; simpl; lia | right; lia].
    + apply IH. by right.
Qed.

(** The bounds of [wrapText]: the width of its lines, their number, and
    the text that needs no wrapping. *)
Lemma wrapText_short text maxChars maxLines :
  strLen text <= maxChars -> wrapText text maxChars maxLines = [text].
Proof.
  intros Hfit. unfold wrapText.
  by destruct (Z.leb_spec (strLen text) maxChars); [|lia].
Qed.

Lemma wrapText_widths text maxChars maxLines :
  1 <= maxChars ->
  Forall (fun l => strLen l <= maxChars) (wrapText text maxChars maxLines).
Proof.
  intros Hm. unfold wrapText.
  pose proof (wrapLoop_widths maxChars maxLines (splitSpaces false text) [] ""
                Hm (Forall_nil_2 _)) as Hwidth.
  destruct (wrapLoop maxChars maxLines (splitSpaces false text) [] "")
    as [lines current]. simpl in Hwidth.
  destruct (Z.leb_spec (strLen text) maxChars); [by repeat constructor|].
  repeat case_match; try done.
  - apply Forall_app. split; [done|]. repeat constructor. by apply clipLine_length.
  - apply Forall_app. split.
    + clear -Hwidth. induction lines as [|l [|l' lines] IH]; [done | done |].
      apply Forall_cons in Hwidth as [? ?]. constructor; [done | by apply IH].
    + repeat constructor. by apply clipLine_length.
Qed.

Lemma wrapText_count text maxChars maxLines :
  1 <= maxLines ->
  Z.of_nat (length (wrapText text maxChars maxLines)) <= maxLines.
Proof.
  intros Hm. unfold wrapText.
  pose proof (wrapLoop_count maxChars maxLines (splitSpaces false text) [] ""
                (or_introl eq_refl)) as Hcount. cbv zeta in Hcount.
  destruct (wrapLoop maxChars maxLines (splitSpaces false text) [] "")
    as [lines current]. simpl in Hcount.
  destruct (Z.leb_spec (strLen text) maxChars); [simpl; lia|].
  destruct (Z.ltb_spec (Z.of_nat (length lines)) maxLines) as [Hlt|Hge]; simpl.
  - destruct (negb (String.eqb current "")); simpl.
    + rewrite length_app. simpl. lia.
    + destruct (maxLines <=? Z.of_nat (length lines)); simpl; lia.
  - destruct (Z.leb_spec maxLines (Z.of_nat (length lines))); [|lia]. simpl.
    destruct (negb (String.eqb current "")); [|lia].
    destruct (last lines) as [l|] eqn:Hlast; [|lia].
    rewrite length_app. simpl.
    assert (length (removelast lines) + 1 = length lines)%nat as Hlen.
    { clear -Hlast. induction lines as [|x [|y lines] IH]; [done | done |].
      specialize (IH Hlast). simpl in *. lia. }
    lia.
Qed.

(** X17.  A wrapped label fits the button: for a width of at least one
    character no line of [wrapText] is wider than [maxChars], and for at
    least one line allowed it returns at most [maxLines] lines; a text
    that fits the width is returned as it is, on one line. *)
Theorem wrapText_fits text maxChars maxLines :
  (1 <= maxChars ->
   Forall (fun l => strLen l <= maxChars) (wrapText text maxChars maxLines)) /\
  (1 <= maxLines ->
   Z.of_nat (length (wrapText text maxChars maxLines)) <= maxLines) /\
  (strLen text <= maxChars -> wrapText text maxChars maxLines = [text]).
Proof.
  split; [|split].
  - apply wrapText_widths.
  - apply wrapText_count.
  - apply wrapText_short.
Qed.

Lemma pickTier_cases tabName :
  pickTier tabName ∈ fontTiers.
Proof.
  unfold pickTier.
  destruct (find _ fontTiers) as [t|] eqn:Hfind; simpl.
  - unfold fontTiers in *. simpl in Hfind.
    repeat case_match; simplify_eq; set_solver.
  - unfold smallestTier, fontTiers. set_solver.
Qed.

(** X18.  The label of a button is at most three lines of at most twelve
    characters, each line within the width of the font tier chosen; a name
    of at most nine characters that does not end in an ellipsis is drawn
    whole, on one line, in the largest font. *)
Theorem buttonLines_fit tabName :
  pickTier tabName ∈ fontTiers /\
  (length (buttonLines tabName) <= 3)%nat /\
  Forall (fun l => strLen l <= maxChars (pickTier tabName) /\ strLen l <= 12)
         (buttonLines tabName) /\
  (strLen tabName <= 9 -> endsWithChar ellipsis tabName = false ->
   fontSize (pickTier tabName) = 24 /\ buttonLines tabName = [tabName]).
Proof.
  pose proof (pickTier_cases tabName) as Htier.
  split; [done|]. unfold buttonLines.
  pose proof (wrapText_widths tabName (maxChars (pickTier tabName)) 3) as Hwidth.
  pose proof (wrapText_count tabName (maxChars (pickTier tabName)) 3) as Hcount.
  assert (1 <= maxChars (pickTier tabName) <= 12) as Hm.
  { unfold fontTiers in Htier.
    repeat (apply elem_of_cons in Htier as [-> | Htier]); simpl; try lia.
    by apply elem_of_nil in Htier. }
  split; [|split].
  - specialize (Hcount ltac:(lia)). lia.
  - eapply Forall_impl; [apply Hwidth; lia|]. simpl. intros l Hl. lia.
  - intros Hshort Hend.
    assert (wrapText tabName 9 3 = [tabName]) as Hwrap
      by (apply wrapText_short; lia).
    assert (pickTier tabName
            = {| fontSize := 24; maxChars := 9; lineHeight := 28 |}) as ->.
    { unfold pickTier, fontTiers. simpl. rewrite Hwrap. simpl.
      by rewrite Hend. }
    by split.
Qed.

(** * Escaping *)

Lemma replaceAllChar_app c rep a b :
  replaceAllChar c rep (a +:+ b)
  = replaceAllChar c rep a +:+ replaceAllChar c rep b.
Proof.
  induction a as [|x a IH]; [done|].
  rewrite string_app_cons. simpl. rewrite IH.
  destruct (Ascii.eqb x c); [by rewrite string_app_assoc | done].
Qed.

(** The four passes of [escapeXml] amount to one pass that replaces each
    character on its own: no pass touches what an earlier one wrote. *)
Lemma escapeXml_each s : escapeXml s = escapeEach s.
Proof.
  unfold escapeXml. induction s as [|c s IH]; [done|].
  simpl replaceAllChar at 4. simpl escapeEach. rewrite <- IH. clear IH.
  unfold escapeChar.
  destruct (Ascii.eqb_spec c "&") as [->|Hamp].
  { by rewrite !replaceAllChar_app. }
  simpl replaceAllChar at 3.
  destruct (Ascii.eqb_spec c "<") as [->|Hlt].
  { by rewrite !replaceAllChar_app. }
  simpl replaceAllChar at 2.
  destruct (Ascii.eqb_spec c ">") as [->|Hgt].
  { by rewrite !replaceAllChar_app. }
  simpl replaceAllChar at 1.
  by destruct (Ascii.eqb_spec c quote) as [->|Hq].
Qed.

(** X19.  Escaped text carries no markup of its own: [escapeXml] leaves no
    [<], [>] or double quote in its result, and a text without [&], [<],
    [>] and double quote is returned unchanged. *)
Theorem escapeXml_safe s :
  everyChar (fun c => negb (Ascii.eqb c "<" || Ascii.eqb c ">"
                            || Ascii.eqb c quote)) (escapeXml s) = true /\
  (everyChar (fun c => negb (isMarkup c)) s = true -> escapeXml s = s).
Proof.
  rewrite escapeXml_each. split.
  - induction s as [|c s IH]; [done|]. simpl. rewrite everyChar_app, IH.
    rewrite andb_true_r. unfold escapeChar.
    destruct (Ascii.eqb c "&"); [done|].
    destruct (Ascii.eqb c "<") eqn:Hlt; [done|].
    destruct (Ascii.eqb c ">") eqn:Hgt; [done|].
    destruct (Ascii.eqb c quote) eqn:Hq; [done|].
    simpl. by rewrite Hlt, Hgt, Hq.
  - induction s as [|c s IH]; [done|]. simpl.
    intros [Hc Hs]%andb_true_iff. rewrite (IH Hs).
    unfold isMarkup, escapeChar in *.
    destruct (Ascii.eqb c "&"); [done|].
    destruct (Ascii.eqb c "<"); [done|].
    destruct (Ascii.eqb c ">"); [done|].
    by destruct (Ascii.eqb c quote).
Qed.

(** * The poll cycle and the first notification *)

(** X20.  At most one poll cycle is in flight, and a cycle counts once: a
    request marks the cycle as in flight, a further request before it ends
    changes nothing, and the end of the cycle clears the mark, adds exactly
    1 to [pollCount] and leaves the tracked actions as they were. *)
Theorem poll_cycle_single_flight fetched psOutput front st :
  pollInProgress (pollTabs_begin st) = true /\
  pollTabs_begin (pollTabs_begin st) = pollTabs_begin st /\
  pollCount (pollTabs_begin st) = pollCount st /\
  let st' := (pollTabs_finish fetched psOutput front st).1 in
  pollInProgress st' = false /\
  pollCount st' = pollCount st + 1 /\
  visibleActions st' = visibleActions st.
Proof.
  unfold pollTabs_begin.
  split; [by destruct (pollInProgress st) eqn:H; simpl|].
  split; [by destruct (pollInProgress st) eqn:H; simpl; rewrite ?H|].
  split; [by destruct (pollInProgress st)|].
  cbv zeta. unfold pollTabs_finish. cbv zeta.
  set (tabInfo := withFrontmost fetched front).
  destruct (updateAttention_signal tabInfo st) as (Hpc & _).
  pose proof (updateAttention_visibleActions tabInfo st) as Hva.
  clearbody tabInfo. set (st1 := updateAttention tabInfo st) in *.
  clearbody st1. simpl. done.
Qed.

(** A line of the log stream when no signal is pending: a line that passes
    the filters raises the signal with the hint read from the file and asks
    for a poll; any other line changes nothing. *)
Lemma onLogLine_first matchers file now line st :
  notificationPending st = false ->
  (isNotificationLine matchers line = true ->
   let st' := onLogLine matchers file now line st in
   notificationPending st' = true /\
   notificationProject st' = eventProject (readNotificationEvent file now) /\
   pollInProgress st' = true /\
   attentionTabs st' = attentionTabs st /\
   pollCount st' = pollCount st) /\
  (isNotificationLine matchers line = false ->
   onLogLine matchers file now line st = st).
Proof.
  intros Hpend. unfold isNotificationLine, onLogLine. rewrite Hpend.
  destruct (Js.startsWith line "Filtering" || Js.startsWith line "Timestamp"
            || String.eqb (Js.trim line) ""); simpl; [by split|].
  destruct (length matchers =? 0)%nat; simpl; [by split|].
  destruct (existsb (fun m => Js.includes line m) matchers); simpl; [|by split].
  split; [|done]. intros _. unfold pollTabs_begin. simpl.
  by destruct (pollInProgress st) eqn:Hp; simpl; rewrite ?Hp.
Qed.

Lemma onLogLine_pending matchers file now line st :
  notificationPending st = true -> onLogLine matchers file now line st = st.
Proof. intros Hp. unfold onLogLine. rewrite Hp. by repeat case_match. Qed.

(** X22.  A line of the process table without white space, the empty last
    line among them, is not a row of three columns and adds nothing. *)
Theorem groupForegroundLine_ignores_short fgByTty line :
  everyChar Rx.nonSpace line = true ->
  groupForegroundLine fgByTty line = fgByTty.
Proof.
  intros Hall. unfold groupForegroundLine.
  destruct (Rx.exec psLineRegex line) as [gs|] eqn:Hex; [|done].
  exfalso. apply exec_sound in Hex as [Hacc ->].
  unfold psLineRegex in Hacc.
  repeat (let g := fresh "g" in let H := fresh "H" in
          apply Forall2_cons_inv_l in Hacc as (g & gs' & H & Hacc & ->);
          rename gs' into gs).
  simpl in Hall. rewrite !everyChar_app in Hall.
  apply andb_true_iff in Hall as (_ & (_ & (Hgap & _)%andb_true_iff)%andb_true_iff).
  destruct H1 as [Hc Hlen]. simpl in Hlen.
  destruct g1 as [|x g1]; [simpl in Hlen; lia|].
  cbn [everyChar Rx.cls] in Hc. cbn [everyChar] in Hgap.
  unfold Rx.nonSpace, Rx.space in *.
  by destruct (Js.isWhiteSpace x).
Qed.

(** * Case in tab names *)

Lemma toLowerCase_app a b :
  Js.toLowerCase (a +:+ b) = Js.toLowerCase a +:+ Js.toLowerCase b.
Proof.
  induction a as [|x a IH]; [done|]. rewrite string_app_cons. simpl.
  by rewrite IH.
Qed.

Lemma toLowerCase_length s : String.length (Js.toLowerCase s) = String.length s.
Proof. induction s as [|c s IH]; simpl; [done | by rewrite IH]. Qed.

Lemma isWhiteSpace_lower c : Js.isWhiteSpace (Js.toLowerChar c) = Js.isWhiteSpace c.
Proof. by destruct c as [[] [] [] [] [] [] [] []]. Qed.

Lemma trimStart_lower s :
  Js.trimStart (Js.toLowerCase s) = Js.toLowerCase (Js.trimStart s).
Proof.
  induction s as [|c s IH]; simpl; [done|].
  rewrite isWhiteSpace_lower. by destruct (Js.isWhiteSpace c).
Qed.

Lemma trimEnd_lower s :
  Js.trimEnd (Js.toLowerCase s) = Js.toLowerCase (Js.trimEnd s).
Proof.
  induction s as [|c s IH]; simpl; [done|].
  rewrite IH, isWhiteSpace_lower.
  destruct (Js.trimEnd s); simpl; [by destruct (Js.isWhiteSpace c) | done].
Qed.

Lemma trim_lower s : Js.trim (Js.toLowerCase s) = Js.toLowerCase (Js.trim s).
Proof. unfold Js.trim. by rewrite trimStart_lower, trimEnd_lower. Qed.

Section LowerCase.
Context {X : Type} (c : ascii -> bool) (min : nat)
        (k k' : string -> string -> option X) (F : X -> X).
Hypothesis c_lower : forall a, c (Js.toLowerChar a) = c a.
Hypothesis k_lower : forall t r,
  k' (Js.toLowerCase t) (Js.toLowerCase r) = F <$> k t r.

Lemma repeatGreedy_lower s : forall taken,
  Rx.repeatGreedy c min k' (Js.toLowerCase taken) (Js.toLowerCase s)
  = F <$> Rx.repeatGreedy c min k taken s.
Proof.
  induction s as [|a s IH]; intros taken.
  - simpl. rewrite toLowerCase_length.
    destruct (min <=? String.length taken)%nat; [apply (k_lower taken "") | done].
  - cbn [Js.toLowerCase]. rewrite !repeatGreedy_cons, c_lower, toLowerCase_length.
    change (String (Js.toLowerChar a) (Js.toLowerCase s))
      with (Js.toLowerCase (String a s)).
    change (Js.toLowerCase taken +:+ String (Js.toLowerChar a) "")
      with (Js.toLowerCase taken +:+ Js.toLowerCase (String a "")).
    rewrite <- toLowerCase_app, IH, k_lower.
    destruct (c a); [|by destruct (min <=? String.length taken)%nat].
    destruct (Rx.repeatGreedy c min k (taken +:+ String a "") s); [done|].
    by destruct (min <=? String.length taken)%nat.
Qed.

Lemma repeatLazy_lower s : forall taken,
  Rx.repeatLazy c min k' (Js.toLowerCase taken) (Js.toLowerCase s)
  = F <$> Rx.repeatLazy c min k taken s.
Proof.
  induction s as [|a s IH]; intros taken.
  - simpl. rewrite toLowerCase_length.
    destruct (min <=? String.length taken)%nat; [|done].
    change "" with (Js.toLowerCase "") at 1. rewrite k_lower.
    by destruct (k taken "").
  - cbn [Js.toLowerCase Rx.repeatLazy]. rewrite c_lower, toLowerCase_length.
    change (String (Js.toLowerChar a) (Js.toLowerCase s))
      with (Js.toLowerCase (String a s)).
    change (Js.toLowerCase taken +:+ String (Js.toLowerChar a) "")
      with (Js.toLowerCase taken +:+ Js.toLowerCase (String a "")).
    rewrite <- toLowerCase_app, IH.
    destruct (min <=? String.length taken)%nat.
    + rewrite k_lower. destruct (k taken (String a s)); [done|].
      by destruct (c a).
    + by destruct (c a).
Qed.
End LowerCase.

(** An expression whose classes do not tell a letter from its lower case
    cuts a text and its lower case at the same places. *)
Lemma exec_lower r :
  Forall (fun a => forall x, Rx.cls a (Js.toLowerChar x) = Rx.cls a x) r ->
  forall s, Rx.exec r (Js.toLowerCase s) = map Js.toLowerCase <$> Rx.exec r s.
Proof.
  induction r as [|a r IH]; intros Hall s.
  - by destruct s.
  - apply Forall_cons in Hall as [Ha Hall]. specialize (IH Hall).
    assert (Hk : forall t rest,
              cons (Js.toLowerCase t) <$> Rx.exec r (Js.toLowerCase rest)
              = map Js.toLowerCase <$> (cons t <$> Rx.exec r rest)).
    { intros t rest. rewrite IH. by destruct (Rx.exec r rest). }
    simpl. destruct (Rx.rep a) as [|min|min].
    + destruct s as [|x s]; [done|]. simpl. rewrite Ha.
      destruct (Rx.cls a x); [|done]. apply (Hk (String x "")).
    + by apply (repeatGreedy_lower (Rx.cls a) min _ _ (map Js.toLowerCase) Ha Hk s "").
    + by apply (repeatLazy_lower (Rx.cls a) min _ _ (map Js.toLowerCase) Ha Hk s "").
Qed.

Lemma tabNameRegex_lower :
  Forall (fun a => forall x, Rx.cls a (Js.toLowerChar x) = Rx.cls a x) tabNameRegex.
Proof.
  unfold tabNameRegex.
  repeat constructor; intros x; by destruct x as [[] [] [] [] [] [] [] []].
Qed.

Lemma parseTabName_lower fullName :
  parseTabName (Js.toLowerCase fullName)
  = {| displayName := Js.toLowerCase (displayName (parseTabName fullName));
       process := Js.toLowerCase (process (parseTabName fullName)) |}.
Proof.
  unfold parseTabName. rewrite (exec_lower _ tabNameRegex_lower).
  destruct (Rx.exec tabNameRegex fullName) as [gs|]; simpl; [|done].
  do 6 (destruct gs as [|? gs]; simpl; [done|]).
  destruct gs; simpl; [|done]. by rewrite !trim_lower.
Qed.

(** X9.  Project matching ignores case on both sides: the tab name and the
    hint may each be replaced by their lower case without changing the
    answer.  An empty hint would match every tab name. *)
Theorem matchesProject_ignores_case name hint :
  matchesProject (Js.toLowerCase name) hint = matchesProject name hint /\
  matchesProject name (Js.toLowerCase hint) = matchesProject name hint /\
  matchesProject name "" = true.
Proof.
  unfold matchesProject. split; [|split].
  - rewrite parseTabName_lower. simpl. by rewrite toLowerCase_idemp.
  - by rewrite toLowerCase_idemp.
  - simpl. rewrite includes_unfold.
    by destruct (Js.toLowerCase (displayName (parseTabName name))).
Qed.

(** * Signals raised by a chunk *)

Lemma onLogLines_signal matchers file now lines : forall st,
  let st' := foldl (fun s line => onLogLine matchers file now line s) st lines in
  notificationPending st'
  = notificationPending st || existsb (isNotificationLine matchers) lines /\
  (notificationPending st = false ->
   existsb (isNotificationLine matchers) lines = true ->
   notificationProject st' = eventProject (readNotificationEvent file now) /\
   pollInProgress st' = true) /\
  (notificationPending st = true \/
   existsb (isNotificationLine matchers) lines = false -> st' = st) /\
  attentionTabs st' = attentionTabs st /\ pollCount st' = pollCount st.
Proof.
  induction lines as [|line lines IH]; intros st; simpl.
  - rewrite orb_false_r. by repeat split.
  - specialize (IH (onLogLine matchers file now line st)). cbv zeta in IH.
    destruct IH as (IHp & IHs & IHk & IHa & IHc).
    destruct (notificationPending st) eqn:Hpend.
    + rewrite (onLogLine_pending _ _ _ _ _ Hpend) in *.
      rewrite Hpend in IHp.
      split; [done|]. split; [done|]. split; [|done].
      intros _. apply IHk. by left.
    + destruct (onLogLine_first matchers file now line st Hpend) as [Hyes Hno].
      destruct (isNotificationLine matchers line) eqn:Hline; simpl.
      * destruct (Hyes eq_refl) as (Hp1 & Hpr1 & Hpoll1 & Ha1 & Hc1).
        rewrite (IHk (or_introl Hp1)) in *.
        split; [done|]. split; [done|]. split; [|done].
        by intros [? | ?].
      * rewrite (Hno eq_refl) in *. rewrite Hpend in IHp, IHs, IHk.
        split; [done|]. split; [done|]. split; [|done].
        intros [? | Hnone]; [done|]. apply IHk. by right.
Qed.

(** X21.  What a chunk of log output does to the signal: the complete
    lines of the buffer and the chunk are examined in order; a signal is
    pending afterwards when one was pending or one of these lines passes
    the filters (not a header line, not blank, containing a matcher); a
    new signal carries the hint read from the file and asks for a poll;
    with a signal already pending, or no such line, only the line buffer
    changes.  The flagged set and the poll count are never touched. *)
Theorem onLogData_signal matchers file now chunk st :
  let pieces := Js.split newline (logBuffer st +:+ chunk) in
  let raised := existsb (isNotificationLine matchers) (removelast pieces) in
  let st' := onLogData matchers file now chunk st in
  notificationPending st' = notificationPending st || raised /\
  (notificationPending st = false -> raised = true ->
   notificationProject st' = eventProject (readNotificationEvent file now) /\
   pollInProgress st' = true) /\
  (notificationPending st = true \/ raised = false ->
   st' = set_logBuffer (default "" (last pieces)) st) /\
  attentionTabs st' = attentionTabs st /\ pollCount st' = pollCount st.
Proof.
  cbv zeta. unfold onLogData. rewrite onLogLines_logBuffer.
  destruct (onLogLines_signal matchers file now
              (removelast (Js.split newline (logBuffer st +:+ chunk))) st)
    as (Hp & Hs & Hk & Ha & Hc).
  simpl. repeat split; try done.
  - by apply Hs.
  - by apply Hs.
  - intros Hcase. by rewrite (Hk Hcase).
Qed.

(** * Invariants of the module *)

Lemma attentionLoop_logBuffer tabInfo v w a i st :
  logBuffer (forEachIndex (attentionStep tabInfo v w) i a st) = logBuffer st.
Proof.
  apply (forEachIndex_preserves (fun s => logBuffer s = logBuffer st)); [|done].
  intros j x s <-. unfold attentionStep, addAttention, deleteAttention.
  cbv zeta. repeat case_match; reflexivity.
Qed.

Lemma consumeNotification_logBuffer tabInfo v st :
  logBuffer (consumeNotification tabInfo v st) = logBuffer st.
Proof.
  destruct (consumeNotification_cases tabInfo v st)
    as [Hidle | [[Hp Hn] | [(p & Hp & Hpr & Hne & Hex) | (p & Hp & Hpr & Hne & Hno)]]].
  - by rewrite consumeNotification_idle.
  - rewrite consumeNotification_timing by done.
    by destruct (applyTimingHeuristic_spec tabInfo v
                   (set_notificationPending false st)) as [-> _].
  - by destruct (consumeNotification_matched tabInfo v st p Hp Hpr Hne Hex) as [-> _].
  - rewrite (consumeNotification_unmatched tabInfo v st p) by done.
    by destruct (applyTimingHeuristic_spec tabInfo v
                   (set_notificationPending false st)) as [-> _].
Qed.

Lemma updateAttention_logBuffer tabInfo st :
  logBuffer (updateAttention tabInfo st) = logBuffer st \/
  logBuffer (updateAttention tabInfo st) = "".
Proof.
  unfold updateAttention, startLogStream. cbv zeta.
  repeat case_match; simpl; try (by right);
    left; by rewrite attentionLoop_logBuffer, consumeNotification_logBuffer.
Qed.

Lemma updateAttention_lastProcessing tabInfo st t :
  lastProcessingPoll (updateAttention tabInfo st) !! t =
    if decide (isTab tabInfo t)
    then (if processingAt tabInfo t then Some (pollCount st)
          else lastProcessingPoll st !! t)
    else lastProcessingPoll st !! t.
Proof.
  destruct (consumeNotification_frame tabInfo (visibleTabOf tabInfo) st)
    as (Hpc & _ & _ & Hlp & _).
  rewrite <- Hpc, <- Hlp.
  rewrite <- (attentionLoop_lastProcessing tabInfo (visibleTabOf tabInfo)
    (pollCount (consumeNotification tabInfo (visibleTabOf tabInfo) st)
     <=? notificationWindowEnd (consumeNotification tabInfo (visibleTabOf tabInfo) st))
    (names tabInfo) 0 _ t).
  unfold updateAttention, startLogStream. cbv zeta.
  repeat case_match; reflexivity.
Qed.

(** The end of the window after the notification block. *)
Lemma consumeNotification_window tabInfo v st :
  notificationWindowEnd (consumeNotification tabInfo v st) = notificationWindowEnd st \/
  notificationWindowEnd (consumeNotification tabInfo v st) = pollCount st + 4.
Proof.
  destruct (consumeNotification_cases tabInfo v st)
    as [Hidle | [[Hp Hn] | [(p & Hp & Hpr & Hne & Hex) | (p & Hp & Hpr & Hne & Hno)]]].
  - left. by rewrite consumeNotification_idle.
  - right. rewrite consumeNotification_timing by done.
    by destruct (applyTimingHeuristic_spec tabInfo v
                   (set_notificationPending false st)) as [-> _].
  - left.
    by destruct (consumeNotification_matched tabInfo v st p Hp Hpr Hne Hex) as [-> _].
  - right. rewrite (consumeNotification_unmatched tabInfo v st p) by done.
    by destruct (applyTimingHeuristic_spec tabInfo v
                   (set_notificationPending false st)) as [-> _].
Qed.

(** The hint after the notification block. *)
Lemma consumeNotification_hint tabInfo v st :
  (notificationPending st = true ->
   truthyString (notificationProject (consumeNotification tabInfo v st)) = false) /\
  (notificationPending st = false ->
   notificationProject (consumeNotification tabInfo v st) = notificationProject st).
Proof.
  split.
  - intros Hp.
    destruct (consumeNotification_cases tabInfo v st)
      as [Hidle | [[_ Hn] | [(p & _ & Hpr & Hne & Hex) | (p & _ & Hpr & Hne & Hno)]]].
    + congruence.
    + rewrite consumeNotification_timing by done.
      by destruct (applyTimingHeuristic_spec tabInfo v
                     (set_notificationPending false st)) as [-> _].
    + by destruct (consumeNotification_matched tabInfo v st p Hp Hpr Hne Hex) as [-> _].
    + by rewrite (consumeNotification_unmatched tabInfo v st p).
  - intros Hp. by rewrite consumeNotification_idle.
Qed.

Lemma updateAttention_invariant tabInfo st :
  Invariant st -> Invariant (updateAttention tabInfo st).
Proof.
  intros [Hfl Hpc Hwin Hst Hhint Hbuf Hids Hidx].
  destruct (updateAttention_signal tabInfo st) as (Hpc' & Hwe' & Hpend' & Hproj').
  split.
  - intros t Hin. apply updateAttention_mem in Hin.
    destruct Hin as [(Htab & _) | [Hin _]]; [unfold isTab in Htab; lia|].
    apply consumeNotification_added in Hin as [Hin | [Htab _]];
      [by apply Hfl | unfold isTab in Htab; lia].
  - lia.
  - rewrite Hwe', Hpc'.
    destruct (consumeNotification_window tabInfo (visibleTabOf tabInfo) st)
      as [-> | ->]; lia.
  - intros t p. rewrite updateAttention_lastProcessing, Hpc'.
    repeat case_match; [intros [= <-]; lia | |]; intros Hp; apply Hst in Hp; lia.
  - intros _. rewrite Hproj'.
    destruct (consumeNotification_hint tabInfo (visibleTabOf tabInfo) st)
      as [Hyes Hno].
    destruct (notificationPending st) eqn:Hp; [by apply Hyes|].
    rewrite Hno by done. by apply Hhint.
  - destruct (updateAttention_logBuffer tabInfo st) as [-> | ->]; done.
  - by rewrite updateAttention_visibleActions.
  - by rewrite updateAttention_visibleActions.
Qed.

Lemma mapDelete_values id m (P : Z -> Prop) :
  Forall (fun e => P e.2) m -> Forall (fun e => P e.2) (mapDelete id m).
Proof.
  induction m as [|[k w] m IH]; simpl; intros Hall; [done|].
  apply Forall_cons in Hall as [Hw Hall].
  destruct (String.eqb k id); [done | constructor; auto].
Qed.

(** A change of the variables that the invariant does not read, or that it
    reads in a way that a smaller flagged set or an empty buffer keeps. *)
Lemma Invariant_frame st st' :
  Invariant st ->
  attentionTabs st' ⊆ attentionTabs st ->
  pollCount st' = pollCount st ->
  notificationWindowEnd st' = notificationWindowEnd st ->
  lastProcessingPoll st' = lastProcessingPoll st ->
  (notificationPending st' = false ->
   truthyString (notificationProject st') = false) ->
  Js.includes (logBuffer st') (String newline "") = false ->
  NoDup (map fst (visibleActions st')) ->
  Forall (fun e => 1 <= e.2) (visibleActions st') ->
  Invariant st'.
Proof.
  intros [Hfl Hpc Hwin Hst Hhint Hbuf Hids Hidx] Ha Hp Hw Hl Hh Hb Hi Hx.
  split; rewrite ?Hp, ?Hw, ?Hl; try done.
  intros t Ht. apply Hfl. by apply Ha.
Qed.

Lemma startPolling_frame st :
  attentionTabs (startPolling st) = attentionTabs st /\
  pollCount (startPolling st) = pollCount st /\
  notificationWindowEnd (startPolling st) = notificationWindowEnd st /\
  lastProcessingPoll (startPolling st) = lastProcessingPoll st /\
  notificationPending (startPolling st) = notificationPending st /\
  notificationProject (startPolling st) = notificationProject st /\
  (logBuffer (startPolling st) = logBuffer st \/ logBuffer (startPolling st) = "").
Proof.
  unfold startPolling, pollTabs_begin, startLogStream.
  repeat case_match; simpl; repeat split; auto.
Qed.

Lemma stopPolling_frame st :
  attentionTabs (stopPolling st) = attentionTabs st /\
  pollCount (stopPolling st) = pollCount st /\
  notificationWindowEnd (stopPolling st) = notificationWindowEnd st /\
  lastProcessingPoll (stopPolling st) = lastProcessingPoll st /\
  notificationPending (stopPolling st) = notificationPending st /\
  notificationProject (stopPolling st) = notificationProject st /\
  logBuffer (stopPolling st) = logBuffer st /\
  visibleActions (stopPolling st) = visibleActions st.
Proof.
  unfold stopPolling, stopLogStream.
  destruct (pollTimer st) eqn:Ht, (logStreamProcess st) eqn:Hl; simpl;
    rewrite ?Hl; simpl; done.
Qed.

Lemma onWillAppear_tracks_helper id settingsTabIndex st :
  eventOk (WillAppear id settingsTabIndex) -> Invariant st ->
  let tabIndex :=
    if truthyNumber settingsTabIndex then default 0 settingsTabIndex
    else autoTabIndex (map snd (visibleActions st)) in
  NoDup (map fst (mapSet id tabIndex (visibleActions st))) /\
  Forall (fun e => 1 <= e.2) (mapSet id tabIndex (visibleActions st)).
Proof.
  intros Hok Hinv. cbv zeta. split.
  - apply mapSet_keys, Hinv.
  - apply mapSet_values; [|apply Hinv].
    destruct settingsTabIndex as [n|]; simpl in *.
    + destruct (Z.eqb_spec n 0); simpl; [apply autoTabIndex_range | lia].
    + apply autoTabIndex_range.
Qed.

(** X23.  The invariants of the module.  They hold when the module starts,
    and every event keeps them (settings carrying no negative index), so
    they hold at every moment: flagged indices and tracked indices are at
    least 1, no action id is tracked twice, the poll count is not
    negative, the window ends at most 3 polls after the current one, every
    processing stamp is the count of an earlier poll, no hint is left
    without a pending signal, and the line buffer holds no line feed. *)
Theorem module_invariant matchers :
  Invariant initialState /\
  (forall e st, eventOk e -> Invariant st -> Invariant (handle matchers e st)) /\
  (forall events,
     Forall eventOk events ->
     Invariant (foldl (fun st e => handle matchers e st) initialState events)).
Proof.
  assert (Hinit : Invariant initialState).
  { split; simpl; try done; try lia; try apply NoDup_nil_2. }
  assert (Hstep : forall e st, eventOk e -> Invariant st ->
                               Invariant (handle matchers e st)).
  { intros e st Hok Hinv. destruct e; simpl.
    - (* a button appears *)
      destruct (onWillAppear_tracks_helper id settingsTabIndex st Hok Hinv)
        as (Hnd & Hall).
      unfold onWillAppear in *.
      set (st1 := set_visibleActions _ st) in *.
      destruct (startPolling_frame st1) as (Ha & Hp & Hw & Hl & Hn & Hj & Hb).
      apply (Invariant_frame st); try done;
        rewrite ?startPolling_visibleActions; try done.
      + by rewrite Ha.
      + rewrite Hn, Hj. apply Hinv.
      + destruct Hb as [-> | ->]; [apply Hinv | done].
    - (* a button disappears *)
      unfold onWillDisappear. cbv zeta.
      set (st1 := set_visibleActions (mapDelete id (visibleActions st)) st).
      assert (Invariant st1) as Hinv1.
      { apply (Invariant_frame st); try done; try apply Hinv.
        - apply mapDelete_keys, Hinv.
        - apply mapDelete_values, Hinv. }
      case_match; [|done].
      destruct (stopPolling_frame st1) as (Ha & Hp & Hw & Hl & Hn & Hj & Hb & Hv).
      apply (Invariant_frame st1); try done; rewrite ?Ha, ?Hn, ?Hj, ?Hb, ?Hv;
        try done; apply Hinv1.
    - (* a key press *)
      unfold onKeyDown, onKeyDown_beforeSwitch, switchToTab.
      destruct (mapGet id (visibleActions st)); [|done].
      apply (Invariant_frame st); try done; unfold pollTabs_begin, deleteAttention;
        case_match; simpl; try apply Hinv; set_solver.
    - (* log output *)
      unfold onLogData. cbv zeta. rewrite onLogLines_logBuffer.
      set (pieces := Js.split newline (logBuffer st +:+ chunk)).
      destruct (onLogLines_signal matchers file now (removelast pieces) st)
        as (Hp & Hs & Hk & Ha & Hc).
      set (st1 := foldl _ st (removelast pieces)) in *.
      assert (Hrest : notificationWindowEnd st1 = notificationWindowEnd st /\
                      lastProcessingPoll st1 = lastProcessingPoll st /\
                      visibleActions st1 = visibleActions st).
      { unfold st1. clear. induction (removelast pieces) as [|l ls IH] using rev_ind;
          [done|]. rewrite foldl_app. simpl.
        destruct IH as (<- & <- & <-).
        unfold onLogLine, pollTabs_begin. repeat case_match; done. }
      destruct Hrest as (Hw & Hl & Hv).
      apply (Invariant_frame st); simpl; try done; rewrite ?Ha, ?Hv; try apply Hinv.
      + set_solver.
      + rewrite Hp. intros [Hp0 Hr]%orb_false_iff.
        rewrite (Hk (or_intror Hr)). by apply Hinv.
      + pose proof (split_pieces newline (logBuffer st +:+ chunk)) as Hall.
        fold pieces in Hall.
        destruct (last pieces) as [l|] eqn:Hlast; [|done].
        apply last_Some_elem_of in Hlast. rewrite Forall_forall in Hall.
        by apply Hall.
    - (* the log stream ends *)
      apply (Invariant_frame st); try done; apply Hinv.
    - (* the timer ticks *)
      unfold pollTabs_begin. case_match; [done|].
      apply (Invariant_frame st); try done; apply Hinv.
    - (* a poll cycle ends *)
      unfold pollTabs_finish. cbv zeta. simpl.
      pose proof (updateAttention_invariant (withFrontmost fetched front) st Hinv)
        as Hinv'.
      apply (Invariant_frame _ _ Hinv'); try done; apply Hinv'. }
  split; [done|]. split; [done|].
  intros events Hall. induction events as [|e events IH] using rev_ind; [done|].
  apply Forall_app in Hall as [Hall He]. apply Forall_cons in He as [He _].
  rewrite foldl_app. simpl. apply Hstep; [done | by apply IH].
Qed.

(** * The further properties on sample runs *)

Lemma polls_without_notification_flag_nothing_witness :
  notificationPending initialState = false /\
  attentionTabs (runPolls [Sample.busy; Sample.idle; Sample.quiet] initialState)
    ⊆ attentionTabs initialState.
Proof.
  split; [reflexivity|].
  apply (polls_without_notification_flag_nothing
           [Sample.busy; Sample.idle; Sample.quiet] initialState);
    [reflexivity | simpl; lia].
Defined.

Lemma updateAttention_clears_only_visible_witness :
  frontmost Sample.atPrompt = false /\
  3 ∈ attentionTabs (updateAttention Sample.atPrompt Sample.flagged).
Proof.
  split; [reflexivity|].
  apply (proj2 (updateAttention_clears_only_visible Sample.atPrompt Sample.flagged)
               eq_refl 3).
  apply flagged_by_evaluation. vm_compute. reflexivity.
Defined.

Lemma updateAttention_flags_tabs_only_witness :
  3 ∈ attentionTabs Sample.signalled \/
  (isTab Sample.threeTabs 3 /\ 3 <> visibleTabOf Sample.threeTabs).
Proof.
  apply (updateAttention_flags_tabs_only Sample.threeTabs Sample.signalled 3).
  apply flagged_by_evaluation. vm_compute. reflexivity.
Defined.

Lemma updateAttention_records_history_witness :
  isTab Sample.busy 2 /\
  lastProcessingPoll (updateAttention Sample.busy Sample.started) !! 2 = Some 0 /\
  prevProcessingState (updateAttention Sample.busy Sample.started) !! 2 = Some true.
Proof.
  assert (Htab : isTab Sample.busy 2) by (unfold isTab; simpl; lia).
  destruct (proj1 (updateAttention_records_history Sample.busy Sample.started 2) Htab)
    as (_ & Hproc & Hlast).
  split; [exact Htab|]. split; [exact Hlast | exact Hproc].
Defined.

Lemma updateAttention_consumes_signal_witness :
  notificationPending Sample.signalled = true /\
  notificationPending (updateAttention Sample.threeTabs Sample.signalled) = false /\
  truthyString
    (notificationProject (updateAttention Sample.threeTabs Sample.signalled))
  = false.
Proof.
  assert (Hpend : notificationPending Sample.signalled = true)
    by (vm_compute; reflexivity).
  destruct (updateAttention_consumes_signal Sample.threeTabs Sample.signalled)
    as (Hclear & Hhint & _).
  split; [exact Hpend|]. split; [exact Hclear | exact (Hhint Hpend)].
Defined.

Lemma matchTtyPrograms_entries_witness :
  matchTtyPrograms (ttys Sample.threeTabs) Sample.psTable !! 3 = None.
Proof.
  apply (proj2 (matchTtyPrograms_entries (ttys Sample.threeTabs) Sample.psTable)
               2%nat "/dev/ttys003"); [reflexivity | vm_compute; reflexivity].
Defined.


Lemma onWillDisappear_untracks_witness :
  NoDup (map fst (visibleActions Sample.started)) /\
  mapGet "button-2" (visibleActions (onWillDisappear "button-2" Sample.started))
  = None.
Proof.
  assert (Hnd : NoDup (map fst (visibleActions Sample.started))).
  { vm_compute.
    repeat (apply NoDup_cons; split;
            [intros Hin;
             repeat (apply elem_of_cons in Hin as [Hin | Hin]; [discriminate|]);
             by apply elem_of_nil in Hin|]).
    apply NoDup_nil_2. }
  split; [exact Hnd|].
  exact (proj1 (onWillDisappear_untracks "button-2" Sample.started Hnd)).
Defined.

Lemma onLogData_partial_line_witness :
  onLogData DEFAULT_NOTIFICATION_MATCHERS ReadThrows 0
    "usernoted: delivered com.googlecode" initialState
  = set_logBuffer "usernoted: delivered com.googlecode" initialState.
Proof.
  apply (proj2 (onLogData_partial_line DEFAULT_NOTIFICATION_MATCHERS ReadThrows 0
                  "usernoted: delivered com.googlecode" initialState));
    vm_compute; reflexivity.
Defined.

Lemma parseTabName_without_parenthesis_witness :
  parseTabName " notes (vim" = {| displayName := " notes (vim"; process := "" |}.
Proof.
  apply (parseTabName_without_parenthesis " notes (vim"). vm_compute. reflexivity.
Defined.

Lemma parseTabName_round_trip_witness :
  parseTabName "Deploy api  (node)"
  = {| displayName := "Deploy api"; process := "node" |}.
Proof.
  apply (parseTabName_round_trip "Deploy api" "  " "node");
    first [discriminate | vm_compute; reflexivity].
Defined.

Lemma groupForegroundLine_columns_witness :
  groupForegroundLine ∅ "ttys001  S+   /usr/bin/vim notes.txt"
  = {[ "ttys001" := ["/usr/bin/vim notes.txt"] ]}.
Proof.
  rewrite (groupForegroundLine_columns ∅ "ttys001" "  " "S+" "   "
             "/" "usr/bin/vim notes.txt");
    first [discriminate | vm_compute; reflexivity].
Defined.

Lemma wrapText_fits_witness :
  Z.of_nat (length (wrapText "streamdeck iterm tabs" 9 3)) <= 3 /\
  Forall (fun l => strLen l <= 9) (wrapText "streamdeck iterm tabs" 9 3).
Proof.
  destruct (wrapText_fits "streamdeck iterm tabs" 9 3) as (Hwidth & Hcount & _).
  split; [apply Hcount | apply Hwidth]; lia.
Defined.

Lemma buttonLines_fit_witness :
  fontSize (pickTier "notes") = 24 /\ buttonLines "notes" = ["notes"].
Proof.
  destruct (buttonLines_fit "notes") as (_ & _ & _ & Hshort).
  apply Hshort; [vm_compute; discriminate | vm_compute; reflexivity].
Defined.

Lemma escapeXml_safe_witness : escapeXml "notes (vim)" = "notes (vim)".
Proof.
  apply (proj2 (escapeXml_safe "notes (vim)")). vm_compute. reflexivity.
Defined.

Lemma onLogData_signal_witness :
  notificationPending Sample.started = false /\
  notificationProject
    (onLogData DEFAULT_NOTIFICATION_MATCHERS Sample.apiFile 1700000001000
       (Sample.line +:+ String newline "Times") Sample.started) = Some "api".
Proof.
  assert (Hpend : notificationPending Sample.started = false)
    by (vm_compute; reflexivity).
  destruct (onLogData_signal DEFAULT_NOTIFICATION_MATCHERS Sample.apiFile
              1700000001000 (Sample.line +:+ String newline "Times")
              Sample.started) as (_ & Hnew & _).
  destruct (Hnew Hpend ltac:(vm_compute; reflexivity)) as [Hhint _].
  split; [exact Hpend|]. rewrite Hhint. vm_compute. reflexivity.
Defined.

Lemma groupForegroundLine_ignores_short_witness :
  groupForegroundLine {[ "ttys001" := ["vim"] ]} "TTY"
  = {[ "ttys001" := ["vim"] ]}.
Proof.
  apply (groupForegroundLine_ignores_short _ "TTY"). vm_compute. reflexivity.
Defined.

Lemma module_invariant_witness :
  Forall eventOk sampleSession /\
  Invariant (foldl (fun st e => handle DEFAULT_NOTIFICATION_MATCHERS e st)
               initialState sampleSession).
Proof.
  assert (Hok : Forall eventOk sampleSession).
  { unfold sampleSession.
    repeat first [apply Forall_nil_2
                 | apply Forall_cons_2; [simpl; first [exact I | lia]|]]. }
  split; [exact Hok|].
  exact (proj2 (proj2 (module_invariant DEFAULT_NOTIFICATION_MATCHERS)) _ Hok).
Defined.
